(** * ATS resume analyzer: a shallow embedding of [main.py] and its properties

    The development follows the pipeline of the program:
    text extraction, field extraction, scoring, suggestions and the
    request handler with its temporary files.

    - Python [str] is modelled by [string]; a character is a code point
      below 256 (Rocq's [ascii] read as a number), with Python's
      classification and case mapping on that range.
    - Python [set] is modelled by stdpp's [gset string]; [list(s)] is
      [elements s].  Python leaves the iteration order of a set open; no
      statement below depends on it.
    - Python [float] is IEEE-754 binary64.  A finite float is modelled by
      its exact rational value, and every operation returns the exact result
      rounded to nearest, ties to even ([PyFloat.RN]).  The model is checked
      against the Standard Library's [SpecFloat] on the whole range the
      pipeline can reach.
    - The filesystem and exceptions of the handler are modelled by explicit
      state passing with an error result. *)

From Stdlib Require Import ZArith QArith Qround Qpower Lqa Lia Bool List Ascii String SpecFloat.
From Stdlib.Init Require Import Byte.
From stdpp Require Import base option list strings gmap sets.

Local Open Scope string_scope.
Local Open Scope list_scope.

(** ** Python strings *)

Module PyStr.

Definition code (c : ascii) : N := N_of_ascii c.

Definition between (lo hi : N) (c : ascii) : bool :=
  ((lo <=? code c) && (code c <=? hi))%N.

(** [str.isspace] on code points below 256:
    U+0009..U+000D, U+001C..U+0020, U+0085, U+00A0. *)
Definition isspace (c : ascii) : bool :=
  between 9 13 c || between 28 32 c || (code c =? 133)%N || (code c =? 160)%N.

(** [str.isdigit] on code points below 256: the decimal digits and the
    superscripts U+00B2, U+00B3, U+00B9. *)
Definition isdigit (c : ascii) : bool :=
  between 48 57 c || (code c =? 178)%N || (code c =? 179)%N || (code c =? 185)%N.

Definition isupper (c : ascii) : bool :=
  between 65 90 c || (between 192 222 c && negb (code c =? 215)%N).

Definition lower_char (c : ascii) : ascii :=
  if isupper c then ascii_of_N (code c + 32) else c.

(** [s.lower()] *)
Fixpoint lower (s : string) : string :=
  match s with
  | EmptyString => EmptyString
  | String c s' => String (lower_char c) (lower s')
  end.

(** [s.title()], on the ASCII letters: the first letter of every maximal
    run of letters is upper-cased, the others are lower-cased.  The program
    applies it to its vocabulary only, which is ASCII. *)
Definition isalpha_ascii (c : ascii) : bool := between 65 90 c || between 97 122 c.

Definition upper_char_ascii (c : ascii) : ascii :=
  if between 97 122 c then ascii_of_N (code c - 32) else c.

Fixpoint title_from (prev_cased : bool) (s : string) : string :=
  match s with
  | EmptyString => EmptyString
  | String c s' =>
      if isalpha_ascii c
      then String (if prev_cased then lower_char c else upper_char_ascii c)
                  (title_from true s')
      else String c (title_from false s')
  end.

Definition title (s : string) : string := title_from false s.

(** [s.strip()] *)
Fixpoint lstrip (s : string) : string :=
  match s with
  | EmptyString => EmptyString
  | String c s' => if isspace c then lstrip s' else s
  end.

Fixpoint rstrip (s : string) : string :=
  match s with
  | EmptyString => EmptyString
  | String c s' =>
      match rstrip s' with
      | EmptyString => if isspace c then EmptyString else String c EmptyString
      | r => String c r
      end
  end.

Definition strip (s : string) : string := rstrip (lstrip s).

(** [s.split()]: the maximal runs of non-whitespace characters. *)
Definition push_word (w : string) (ws : list string) : list string :=
  match w with EmptyString => ws | _ => w :: ws end.

Fixpoint split_go (s : string) : string * list string :=
  match s with
  | EmptyString => (EmptyString, [])
  | String c s' =>
      let '(w, ws) := split_go s' in
      if isspace c then (EmptyString, push_word w ws) else (String c w, ws)
  end.

Definition split_ws (s : string) : list string :=
  let '(w, ws) := split_go s in push_word w ws.

(** [s.split(sep)] for a separator of one character. *)
Fixpoint split_on (sep : ascii) (s : string) : list string :=
  match s with
  | EmptyString => [EmptyString]
  | String c s' =>
      let r := split_on sep s' in
      if Ascii.eqb c sep then EmptyString :: r
      else match r with
           | h :: t => String c h :: t
           | [] => [String c EmptyString]
           end
  end.

(** [any(p(ch) for ch in s)] *)
Fixpoint any_char (p : ascii -> bool) (s : string) : bool :=
  match s with
  | EmptyString => false
  | String c s' => p c || any_char p s'
  end.

(** [needle in hay] *)
Fixpoint contains (needle hay : string) : bool :=
  String.prefix needle hay ||
  match hay with
  | EmptyString => false
  | String _ hay' => contains needle hay'
  end.

(** [s.endswith(suffix)] *)
Fixpoint endswith (suffix s : string) : bool :=
  String.eqb s suffix ||
  match s with
  | EmptyString => false
  | String _ s' => endswith suffix s'
  end.

(** [sep.join(l)] *)
Fixpoint join (sep : string) (l : list string) : string :=
  match l with
  | [] => EmptyString
  | [x] => x
  | x :: rest => x +:+ sep +:+ join sep rest
  end.

Definition chars (s : string) : list ascii := list_ascii_of_string s.

End PyStr.

(** ** Python floats *)

Module PyFloat.

Definition pow2 (e : Z) : Q := (2 ^ e)%Q.

(** The binary exponent of a positive rational: the [k] with
    [2^k <= x < 2^(k+1)]. *)
Definition ilog2 (x : Q) : Z :=
  let d := (Z.log2 (Qnum x) - Z.log2 (Zpos (Qden x)))%Z in
  if Qle_bool (pow2 d) x then d else (d - 1)%Z.

(** Exponent of the last place of a binary64 number of binary exponent
    [k]: 53 significant bits, subnormals from [2^-1074]. *)
Definition fexp (k : Z) : Z := Z.max (k - 52) (-1074).

(** Nearest integer, ties to even. *)
Definition rhe (x : Q) : Z :=
  let f := Qfloor x in
  match Qcompare (x - inject_Z f) (1 # 2) with
  | Lt => f
  | Eq => if Z.even f then f else (f + 1)%Z
  | Gt => (f + 1)%Z
  end.

Definition RNpos (x : Q) : Q :=
  let e := fexp (ilog2 x) in
  (inject_Z (rhe (x * pow2 (- e))) * pow2 e)%Q.

(** Round to nearest binary64, ties to even.  The exponent range is not
    bounded above: no value of the program exceeds 100
    (see [percent_range] and [overall_range]). *)
Definition RN (x : Q) : Q :=
  match Qcompare x 0 with
  | Eq => 0%Q
  | Gt => RNpos x
  | Lt => (- RNpos (- x))%Q
  end.

(** [x * y] and [x + y] on floats *)
Definition fmul (x y : Q) : Q := RN (x * y).
Definition fadd (x y : Q) : Q := RN (x + y).

(** [a / b] on integers: Python returns the correctly rounded quotient.
    Python raises on [b = 0]; the program divides by the size of a set it
    has found non-empty. *)
Definition truediv (a b : Z) : Q := RN (inject_Z a / inject_Z b).

(** Conversion of an [int] operand to [float]. *)
Definition of_int (z : Z) : Q := RN (inject_Z z).

(** [int(x)]: truncation toward zero. *)
Definition to_int (x : Q) : Z := (Qnum x ÷ Zpos (Qden x))%Z.

(** The literals [0.7] and [0.3]. *)
Definition lit_0_7 : Q := RN (7 # 10).
Definition lit_0_3 : Q := RN (3 # 10).

(** *** The same operations in the Standard Library's IEEE-754 model *)

Definition b64_of_Z (z : Z) : spec_float := binary_normalize 53 1024 z 0 false.
Definition b64_mul : spec_float -> spec_float -> spec_float := SFmul 53 1024.
Definition b64_add : spec_float -> spec_float -> spec_float := SFadd 53 1024.
Definition b64_div : spec_float -> spec_float -> spec_float := SFdiv 53 1024.

(** [0.7] is [0x1.6666666666666p-1], [0.3] is [0x1.3333333333333p-2]. *)
Definition b64_0_7 : spec_float := S754_finite false 0x16666666666666 (-53).
Definition b64_0_3 : spec_float := S754_finite false 0x13333333333333 (-54).

Definition b64_value (f : spec_float) : option Q :=
  match f with
  | S754_zero _ => Some 0%Q
  | S754_finite s m e =>
      Some ((if s then - inject_Z (Zpos m) else inject_Z (Zpos m)) * pow2 e)%Q
  | _ => None
  end.

Definition agrees (f : spec_float) (x : Q) : bool :=
  match b64_value f with
  | Some q => Qeq_bool q x
  | None => false
  end.

Definition upto (n : nat) : list Z := map Z.of_nat (seq 0 (S n)).

End PyFloat.

(** ** The libraries and the environment the program relies on

    [PyPDF2], [docx], the UTF-8 decoder of [open], the regular-expression
    engine [re] and the operating system's answer to [open(path, "wb")] are
    not part of the program; they are taken as an interface. *)

Class Externals := {
  (** the texts of the pages of a PDF file; [None] when any step raises *)
  pdf_page_texts : list byte -> option (list string);
  (** the texts of the paragraphs of a DOCX file; [None] when any step raises *)
  docx_paragraph_texts : list byte -> option (list string);
  (** [file.read()] of a file opened in text mode as UTF-8; [None] when it raises *)
  read_utf8 : list byte -> option string;
  (** [re.findall(pattern, text)], every match rendered by [str] *)
  re_findall : string -> string -> list string;
  (** whether [open(path, "wb")] succeeds *)
  can_open_wb : string -> bool
}.

(** The files on disk: path to content. *)
Abbreviation files := (gmap string (list byte)).

(** The line feed, Python's ["\n"]. *)
Definition nl : string := String "010"%char EmptyString.

(** ** Text extraction *)

Section TextExtractor.
Context `{Externals}.

(** [text += item + "\n"] for every item *)
Definition concat_lines (items : list string) : string :=
  fold_left (fun text item => text +:+ item +:+ nl) items EmptyString.

Definition extract_text_from_pdf (fs : files) (file_path : string) : string :=
  match fs !! file_path with
  | Some content =>
      match pdf_page_texts content with
      | Some pages => concat_lines pages
      | None => "Error reading PDF"
      end
  | None => "Error reading PDF"
  end.

Definition extract_text_from_docx (fs : files) (file_path : string) : string :=
  match fs !! file_path with
  | Some content =>
      match docx_paragraph_texts content with
      | Some paragraphs => concat_lines paragraphs
      | None => "Error reading DOCX"
      end
  | None => "Error reading DOCX"
  end.

Definition extract_text_from_txt (fs : files) (file_path : string) : string :=
  match fs !! file_path with
  | Some content =>
      match read_utf8 content with
      | Some text => text
      | None => "Error reading TXT"
      end
  | None => "Error reading TXT"
  end.

(** The text-selection part of [parse_resume]. *)
Definition resume_text (fs : files) (file_path : string) : string :=
  if PyStr.endswith ".pdf" (PyStr.lower file_path) then extract_text_from_pdf fs file_path
  else if PyStr.endswith ".docx" (PyStr.lower file_path) then extract_text_from_docx fs file_path
  else "Unsupported file format".

(** The text-selection part of [parse_job_description]. *)
Definition job_description_text (fs : files) (file_path : string) : string :=
  if PyStr.endswith ".pdf" (PyStr.lower file_path) then extract_text_from_pdf fs file_path
  else if PyStr.endswith ".docx" (PyStr.lower file_path) then extract_text_from_docx fs file_path
  else if PyStr.endswith ".txt" (PyStr.lower file_path) then extract_text_from_txt fs file_path
  else "Unsupported file format".

End TextExtractor.

(** ** Field extraction *)

(** The loop of [extract_name] over [lines[:5]]. *)
Fixpoint name_loop (lines : list string) : string :=
  match lines with
  | [] => "Name not found"
  | line :: rest =>
      let line := PyStr.strip line in
      if (0 <? String.length line)%nat && (length (PyStr.split_ws line) <=? 4)%nat then
        if negb (PyStr.any_char PyStr.isdigit line) && negb (PyStr.contains "@" line)
        then line
        else name_loop rest
      else name_loop rest
  end.

Definition extract_name (text : string) : string :=
  let lines := PyStr.split_on "010"%char text in
  name_loop (firstn 5 lines).

Definition skill_keywords : list string :=
  [ "python"; "java"; "javascript"; "react"; "angular"; "vue"; "nodejs";
    "html"; "css"; "sql"; "mongodb"; "postgresql"; "mysql"; "docker";
    "kubernetes"; "aws"; "azure"; "git"; "linux"; "spring"; "django";
    "flask"; "fastapi"; "rest api"; "api"; "microservices"; "agile";
    "machine learning"; "ai"; "data science"; "pandas"; "numpy";
    "tensorflow"; "pytorch"; "scikit-learn"; "excel"; "powerbi";
    "tableau"; "spark"; "hadoop"; "scala"; "r"; "matlab"; "c++"; "c#";
    "php"; "ruby"; "go"; "rust"; "swift"; "kotlin"; "flutter"; "react native" ].

Definition keywords : list string :=
  [ "experience"; "develop"; "design"; "implement"; "manage"; "lead";
    "create"; "build"; "maintain"; "optimize"; "analyze"; "collaborate";
    "teamwork"; "leadership"; "communication"; "problem solving";
    "project management"; "agile"; "scrum"; "devops"; "ci/cd" ].

(** The loop shared by [extract_skills] and [extract_keywords]:
    [for term in vocabulary: if term in text_lower: found.append(term.title())]. *)
Definition found_terms (vocabulary : list string) (text : string) : list string :=
  let text_lower := PyStr.lower text in
  fold_left
    (fun found term =>
       if PyStr.contains term text_lower then found ++ [PyStr.title term] else found)
    vocabulary [].

(** [list(set(found))] *)
Definition list_set (found : list string) : list string :=
  elements (list_to_set found : gset string).

Definition extract_skills (text : string) : list string :=
  list_set (found_terms skill_keywords text).

Definition extract_keywords (text : string) : list string :=
  list_set (found_terms keywords text).

Section RegexFields.
Context `{Externals}.

Definition extract_email (text : string) : string :=
  let email_pattern := "\b[A-Za-z0-9._%+-]+@[A-Za-z0-9.-]+\.[A-Z|a-z]{2,}\b" in
  match re_findall email_pattern text with
  | first :: _ => first
  | [] => "Email not found"
  end.

Definition phone_patterns : list string :=
  [ "\+?1?[-.\s]?\(?([0-9]{3})\)?[-.\s]?([0-9]{3})[-.\s]?([0-9]{4})";
    "\b\d{10}\b";
    "\b\d{3}[-.\s]\d{3}[-.\s]\d{4}\b" ].

Fixpoint phone_loop (patterns : list string) (text : string) : string :=
  match patterns with
  | [] => "Phone not found"
  | pattern :: rest =>
      match re_findall pattern text with
      | first :: _ => first
      | [] => phone_loop rest text
      end
  end.

Definition extract_phone (text : string) : string := phone_loop phone_patterns text.

End RegexFields.

(** ** The parsed documents *)

(** The dictionaries built by [parse_resume] and [parse_job_description].
    [compare_resume_jd] reads them with [dict.get(key, default)], so a key
    may be absent: an absent key is [None]. *)
Record ResumeData := {
  rd_text : option string;
  rd_name : option string;
  rd_email : option string;
  rd_phone : option string;
  rd_skills : option (list string)
}.

Record JobData := {
  jd_text : option string;
  jd_required_skills : option (list string);
  jd_keywords : option (list string)
}.

Section Parsers.
Context `{Externals}.

Definition parse_resume (fs : files) (file_path : string) : ResumeData :=
  let text := resume_text fs file_path in
  let name := extract_name text in
  let email := extract_email text in
  let phone := extract_phone text in
  let skills := extract_skills text in
  {| rd_text := Some text; rd_name := Some name; rd_email := Some email;
     rd_phone := Some phone; rd_skills := Some skills |}.

Definition parse_job_description (fs : files) (file_path : string) : JobData :=
  let text := job_description_text fs file_path in
  let required_skills := extract_skills text in
  let keywords := extract_keywords text in
  {| jd_text := Some text; jd_required_skills := Some required_skills;
     jd_keywords := Some keywords |}.

End Parsers.

(** ** Suggestions *)

Definition static_tips : list string :=
  [ "Use action verbs like 'developed', 'implemented', 'managed'";
    "Include quantifiable achievements with numbers and percentages";
    "Ensure your resume is ATS-friendly with simple formatting";
    "Add a skills section with relevant technical skills" ].

(** The suggestions appended before the static tips, one rule after the other. *)
Definition conditional_suggestions (skill_match keyword_coverage : Z)
    (resume_skills jd_skills : gset string) : list string :=
  let suggestions := [] in
  let suggestions :=
    if (skill_match <? 70)%Z then
      let missing_skills := firstn 3 (elements (jd_skills ∖ resume_skills)) in
      match missing_skills with
      | [] => suggestions
      | _ => suggestions ++ ["Add these missing skills: " +:+ PyStr.join ", " missing_skills]
      end
    else suggestions in
  let suggestions :=
    if (keyword_coverage <? 60)%Z
    then suggestions ++ ["Include more keywords from the job description"]
    else suggestions in
  let suggestions :=
    if (skill_match <? 50)%Z
    then suggestions ++ ["Focus on highlighting relevant technical skills"]
    else suggestions in
  let suggestions :=
    if (keyword_coverage <? 50)%Z
    then suggestions ++ ["Use more industry-specific terminology"]
    else suggestions in
  suggestions.

Definition generate_suggestions (skill_match keyword_coverage : Z)
    (resume_skills jd_skills : gset string) : list string :=
  let suggestions := conditional_suggestions skill_match keyword_coverage resume_skills jd_skills in
  let suggestions := suggestions ++ static_tips in
  firstn 6 suggestions.

(** ** Scoring *)

Record ScoreReport := {
  overall_score : Z;
  skill_match : Z;
  keyword_coverage : Z;
  suggestions : list string
}.

(** [set(s.lower() for s in l)] *)
Definition lower_set (l : list string) : gset string :=
  list_to_set (map PyStr.lower l).

(** [int((m / n) * 100)] *)
Definition percent (m n : nat) : Z :=
  PyFloat.to_int
    (PyFloat.fmul (PyFloat.truediv (Z.of_nat m) (Z.of_nat n)) (PyFloat.of_int 100)).

Definition skill_match_of (resume_skills jd_skills : gset string) : Z :=
  if decide (jd_skills = ∅) then 100%Z
  else
    let matching_skills := resume_skills ∩ jd_skills in
    percent (size matching_skills) (size jd_skills).

Definition keyword_coverage_of (resume_text_lower : string) (jd_keywords : gset string) : Z :=
  let keyword_matches :=
    length (List.filter (fun keyword => PyStr.contains keyword resume_text_lower)
                        (elements jd_keywords)) in
  if decide (jd_keywords = ∅) then 100%Z
  else percent keyword_matches (size jd_keywords).

(** [int((skill_match * 0.7) + (keyword_coverage * 0.3))] *)
Definition overall_of (skill_match keyword_coverage : Z) : Z :=
  PyFloat.to_int
    (PyFloat.fadd (PyFloat.fmul (PyFloat.of_int skill_match) PyFloat.lit_0_7)
                  (PyFloat.fmul (PyFloat.of_int keyword_coverage) PyFloat.lit_0_3)).

Definition compare_resume_jd (resume_data : ResumeData) (jd_data : JobData) : ScoreReport :=
  let resume_skills := lower_set (default [] (rd_skills resume_data)) in
  let jd_skills := lower_set (default [] (jd_required_skills jd_data)) in
  let jd_keywords := lower_set (default [] (jd_keywords jd_data)) in
  let skill_match := skill_match_of resume_skills jd_skills in
  let resume_text_lower := PyStr.lower (default EmptyString (rd_text resume_data)) in
  let keyword_coverage := keyword_coverage_of resume_text_lower jd_keywords in
  let overall_score := overall_of skill_match keyword_coverage in
  let suggestions := generate_suggestions skill_match keyword_coverage resume_skills jd_skills in
  {| overall_score := overall_score; skill_match := skill_match;
     keyword_coverage := keyword_coverage; suggestions := suggestions |}.

(** ** The request handler *)

Record UploadFile := { filename : string; content : list byte }.

Inductive exn :=
  | OSError (path : string)
  | FileNotFoundError (path : string).

Inductive outcome (A : Type) :=
  | Returned (a : A)
  | Raised (e : exn).
Arguments Returned {A} a.
Arguments Raised {A} e.

(** A computation on the files that returns or raises. *)
Definition io (A : Type) : Type := files -> outcome A * files.

Global Instance io_ret : MRet io := fun A (a : A) fs => (Returned a, fs).

Global Instance io_bind : MBind io := fun A B (k : A -> io B) (m : io A) fs =>
  match m fs with
  | (Returned a, fs') => k a fs'
  | (Raised e, fs') => (Raised e, fs')
  end.

Inductive response :=
  | Ok200 (results : ScoreReport)
  | Error500 (detail : exn).

Section Handler.
Context `{Externals}.

(** [with open(path, "wb") as f: f.write(content)] *)
Definition write_upload (path : string) (data : list byte) : io unit :=
  fun fs =>
    if can_open_wb path then (Returned tt, <[path := data]> fs)
    else (Raised (OSError path), fs).

(** [os.remove(path)] *)
Definition os_remove (path : string) : io unit :=
  fun fs =>
    match fs !! path with
    | Some _ => (Returned tt, delete path fs)
    | None => (Raised (FileNotFoundError path), fs)
    end.

(** reading the files, without changing them *)
Definition io_read {A} (f : files -> A) : io A := fun fs => (Returned (f fs), fs).

(** The body of the [try] block. *)
Definition analyze_body (resume job_description : UploadFile) : io ScoreReport :=
  let resume_path := "uploads/" +:+ filename resume in
  let jd_path := "uploads/" +:+ filename job_description in
  write_upload resume_path (content resume) ;;
  write_upload jd_path (content job_description) ;;
  resume_data ← io_read (fun fs => parse_resume fs resume_path) ;
  jd_data ← io_read (fun fs => parse_job_description fs jd_path) ;
  let results := compare_resume_jd resume_data jd_data in
  os_remove resume_path ;;
  os_remove jd_path ;;
  mret results.

(** [try: ... except Exception as e: raise HTTPException(500, str(e))] *)
Definition analyze_resume (resume job_description : UploadFile) (fs : files)
  : response * files :=
  match analyze_body resume job_description fs with
  | (Returned results, fs') => (Ok200 results, fs')
  | (Raised e, fs') => (Error500 e, fs')
  end.

End Handler.

(** ** A concrete environment, for evaluating the program

    Every document holds its text as plain bytes: a PDF has one page and a
    DOCX one paragraph with that text.  Only the directory [uploads] exists,
    so [open(path, "wb")] succeeds exactly for a file directly inside it. *)

Definition plain_externals : Externals := {|
  pdf_page_texts := fun data => Some [string_of_list_byte data];
  docx_paragraph_texts := fun data => Some [string_of_list_byte data];
  read_utf8 := fun data => Some (string_of_list_byte data);
  re_findall := fun _ _ => [];
  can_open_wb := fun path =>
    match PyStr.split_on "/"%char path with
    | [dir; name] => String.eqb dir "uploads" && negb (String.eqb name "")
    | _ => false
    end
|}.

Definition upload (name text : string) : UploadFile :=
  {| filename := name; content := list_byte_of_string text |}.

(** An environment whose regular-expression engine finds the whole text as
    the only match of the ten-digit pattern and nothing for any other. *)
Definition ten_digit_externals : Externals := {|
  pdf_page_texts := fun data => Some [string_of_list_byte data];
  docx_paragraph_texts := fun data => Some [string_of_list_byte data];
  read_utf8 := fun data => Some (string_of_list_byte data);
  re_findall := fun pattern text => if String.eqb pattern "\b\d{10}\b" then [text] else [];
  can_open_wb := fun _ => true
|}.

(** ** Vocabulary of the statements *)

(** [needle] occurs in [hay] as a substring. *)
Definition occurs_in (needle hay : string) : Prop :=
  exists pre post, hay = pre +:+ needle +:+ post.

(** [s] ends with [suffix]. *)
Definition has_suffix (suffix s : string) : Prop :=
  exists pre, s = pre +:+ suffix.

(** A stripped line that [extract_name] accepts as a name: not empty, at
    most four whitespace-separated tokens, no digit, no [@]. *)
Definition name_like (line : string) : Prop :=
  line <> EmptyString /\
  (length (PyStr.split_ws line) <= 4)%nat /\
  (forall c, In c (PyStr.chars line) -> PyStr.isdigit c = false) /\
  ~ In "@"%char (PyStr.chars line).

(** The weighted score computed exactly, then rounded down. *)
Definition exact_weighted_floor (skill_match keyword_coverage : Z) : Z :=
  Qfloor (inject_Z skill_match * (7 # 10) + inject_Z keyword_coverage * (3 # 10)).

(** * Properties *)

(** ** Evaluation of the string operations *)

Example lower_ex : PyStr.lower "Built APIs" = "built apis".
Proof. reflexivity. Qed.

Example title_ex : PyStr.title "rest api" = "Rest Api" /\ PyStr.title "c++" = "C++"
  /\ PyStr.title "scikit-learn" = "Scikit-Learn" /\ PyStr.title "ci/cd" = "Ci/Cd".
Proof. repeat split; reflexivity. Qed.

Example strip_ex : PyStr.strip "  Jane  Doe  " = "Jane  Doe".
Proof. reflexivity. Qed.

Example split_ex : PyStr.split_ws "  Jane  Doe x " = ["Jane"; "Doe"; "x"].
Proof. reflexivity. Qed.

Example split_on_ex : PyStr.split_on "010"%char ("a" ++ String "010"%char "" ++ String "010"%char "b")
                      = ["a"; ""; "b"].
Proof. reflexivity. Qed.

Example contains_ex : PyStr.contains "api" "built apis" = true /\ PyStr.contains "ai" "built apis" = false.
Proof. split; reflexivity. Qed.

(** ** Rounding to nearest is monotone *)

Module PyFloatFacts.
Import PyFloat.
Local Open Scope Q_scope.

Lemma pow2_pos e : 0 < pow2 e.
Proof. apply Qpower_0_lt. reflexivity. Qed.

Lemma pow2_add a b : pow2 (a + b) == pow2 a * pow2 b.
Proof. apply Qpower_plus. discriminate. Qed.

Lemma pow2_le a b : (a <= b)%Z -> pow2 a <= pow2 b.
Proof. intros H. apply Qpower_le_compat_l; [exact H | discriminate]. Qed.

Lemma pow2_lt a b : (a < b)%Z -> pow2 a < pow2 b.
Proof. intros H. apply Qpower_lt_compat_l; [exact H | reflexivity]. Qed.

Lemma pow2_lt_inv a b : pow2 a < pow2 b -> (a < b)%Z.
Proof. intros H. apply (Qpower_lt_compat_l_inv 2); [exact H | reflexivity]. Qed.

Lemma pow2_inject a : (0 <= a)%Z -> pow2 a == inject_Z (2 ^ a).
Proof. intros H. unfold pow2. now rewrite Zpower_Qpower. Qed.

Lemma pow2_split a b : pow2 a == pow2 (a - b) * pow2 b.
Proof. rewrite <- pow2_add. now replace (a - b + b)%Z with a by lia. Qed.

Lemma pow2_cancel a : pow2 a * pow2 (- a) == 1.
Proof. rewrite <- pow2_add, Z.add_opp_diag_r. reflexivity. Qed.

Lemma Q_num_den x : x * inject_Z (Zpos (Qden x)) == inject_Z (Qnum x).
Proof.
  destruct x as [p q]. unfold Qeq, Qmult, inject_Z. simpl. lia.
Qed.

Lemma ilog2_spec x : 0 < x -> pow2 (ilog2 x) <= x /\ x < pow2 (ilog2 x + 1).
Proof.
  intros Hx.
  assert (Hp : (0 < Qnum x)%Z).
  { destruct x as [p q]. unfold Qlt in Hx. simpl in *. lia. }
  pose proof (Q_num_den x) as Hnd.
  set (p := Qnum x) in *. set (q := Zpos (Qden x)) in *.
  assert (Hq : (0 < q)%Z) by (subst q; lia).
  destruct (Z.log2_spec p Hp) as [Hp1 Hp2].
  destruct (Z.log2_spec q Hq) as [Hq1 Hq2].
  pose proof (Z.log2_nonneg p) as Ha. pose proof (Z.log2_nonneg q) as Hb.
  set (a := Z.log2 p) in *. set (b := Z.log2 q) in *.
  assert (Hp1' : pow2 a <= inject_Z p).
  { rewrite pow2_inject by lia. now rewrite <- Zle_Qle. }
  assert (Hp2' : inject_Z p < pow2 (a + 1)).
  { rewrite pow2_inject by lia. rewrite <- Zlt_Qlt. now rewrite <- Z.add_1_r in Hp2. }
  assert (Hq1' : pow2 b <= inject_Z q).
  { rewrite pow2_inject by lia. now rewrite <- Zle_Qle. }
  assert (Hq2' : inject_Z q < pow2 (b + 1)).
  { rewrite pow2_inject by lia. rewrite <- Zlt_Qlt. now rewrite <- Z.add_1_r in Hq2. }
  assert (Hq0 : 0 < inject_Z q) by (now rewrite Zlt_Qlt in Hq).
  assert (upper : x < pow2 (a - b + 1)).
  { apply (Qmult_lt_r _ _ (inject_Z q) Hq0). rewrite Hnd.
    eapply Qlt_le_trans; [exact Hp2'|].
    rewrite (pow2_split (a + 1) b). replace (a + 1 - b)%Z with (a - b + 1)%Z by lia.
    apply Qmult_le_l; [apply pow2_pos | exact Hq1']. }
  assert (lower : pow2 (a - b - 1) <= x).
  { apply (Qmult_le_r _ _ (inject_Z q) Hq0). rewrite Hnd.
    eapply Qle_trans; [|exact Hp1'].
    rewrite (pow2_split a (b + 1)). replace (a - (b + 1))%Z with (a - b - 1)%Z by lia.
    apply Qmult_le_l; [apply pow2_pos | apply Qlt_le_weak, Hq2']. }
  unfold ilog2. fold p q a b.
  destruct (Qle_bool (pow2 (a - b)) x) eqn:E.
  - apply Qle_bool_iff in E. split; assumption.
  - split; [exact lower|].
    replace (a - b - 1 + 1)%Z with (a - b)%Z by lia.
    apply Qnot_le_lt. intros H. apply Qle_bool_iff in H. congruence.
Qed.

Lemma ilog2_mono x y : 0 < x -> x <= y -> (ilog2 x <= ilog2 y)%Z.
Proof.
  intros Hx Hxy.
  destruct (ilog2_spec x Hx) as [Hx1 _].
  destruct (ilog2_spec y) as [_ Hy2]; [eapply Qlt_le_trans; eauto|].
  assert (H : pow2 (ilog2 x) < pow2 (ilog2 y + 1)).
  { eapply Qle_lt_trans; [exact Hx1|]. eapply Qle_lt_trans; eauto. }
  apply pow2_lt_inv in H. lia.
Qed.

Lemma rhe_floor x : (Qfloor x <= rhe x <= Qfloor x + 1)%Z.
Proof.
  unfold rhe. destruct (Qcompare _ _); [destruct (Z.even _)| |]; lia.
Qed.

Lemma rhe_Z n : rhe (inject_Z n) = n.
Proof.
  unfold rhe. rewrite Qfloor_Z.
  assert (H : Qcompare (inject_Z n - inject_Z n) (1 # 2) = Lt).
  { rewrite <- Qlt_alt. lra. }
  now rewrite H.
Qed.

Lemma rhe_mono x y : x <= y -> (rhe x <= rhe y)%Z.
Proof.
  intros Hxy. pose proof (Qfloor_resp_le _ _ Hxy) as Hf.
  pose proof (rhe_floor x) as Hx. pose proof (rhe_floor y) as Hy.
  destruct (Z.eq_dec (Qfloor x) (Qfloor y)) as [E|NE]; [|lia].
  clear Hx Hy Hf. unfold rhe. rewrite <- E.
  destruct (Qcompare (x - inject_Z (Qfloor x)) (1 # 2)) eqn:Cx;
    destruct (Qcompare (y - inject_Z (Qfloor x)) (1 # 2)) eqn:Cy;
    try (destruct (Z.even (Qfloor x))); try lia;
    try rewrite <- Qeq_alt in Cx; try rewrite <- Qlt_alt in Cx; try rewrite <- Qgt_alt in Cx;
    try rewrite <- Qeq_alt in Cy; try rewrite <- Qlt_alt in Cy; try rewrite <- Qgt_alt in Cy;
    exfalso; lra.
Qed.

Lemma rhe_nonneg x : 0 <= x -> (0 <= rhe x)%Z.
Proof. intros H. rewrite <- (rhe_Z 0). now apply rhe_mono. Qed.

Lemma RNpos_nonneg x : 0 <= x -> 0 <= RNpos x.
Proof.
  intros Hx. unfold RNpos. apply Qmult_le_0_compat.
  - rewrite <- Zle_Qle with (x := 0%Z). apply rhe_nonneg.
    apply Qmult_le_0_compat; [exact Hx | apply Qlt_le_weak, pow2_pos].
  - apply Qlt_le_weak, pow2_pos.
Qed.

Lemma fexp_mono a b : (a <= b)%Z -> (fexp a <= fexp b)%Z.
Proof. unfold fexp. lia. Qed.

Lemma RNpos_mono x y : 0 < x -> x <= y -> RNpos x <= RNpos y.
Proof.
  intros Hx Hxy.
  assert (Hy : 0 < y) by (eapply Qlt_le_trans; eauto).
  pose proof (ilog2_mono x y Hx Hxy) as Hk.
  pose proof (fexp_mono _ _ Hk) as He.
  destruct (ilog2_spec x Hx) as [_ Hx2]. destruct (ilog2_spec y Hy) as [Hy1 _].
  unfold RNpos.
  set (kx := ilog2 x) in *. set (ky := ilog2 y) in *.
  destruct (Z.eq_dec (fexp kx) (fexp ky)) as [E|NE].
  - rewrite E. apply Qmult_le_compat_r; [|apply Qlt_le_weak, pow2_pos].
    rewrite <- Zle_Qle. apply rhe_mono.
    apply Qmult_le_compat_r; [exact Hxy | apply Qlt_le_weak, pow2_pos].
  - assert (Hey : fexp ky = (ky - 52)%Z) by (unfold fexp in *; lia).
    assert (Hkk : (kx + 1 <= ky)%Z) by (unfold fexp in *; lia).
    assert (Hex : (fexp kx < ky)%Z) by (unfold fexp in *; lia).
    apply Qle_trans with (pow2 ky).
    + (* the rounded value of x stays below the next power of two *)
      assert (H1 : x * pow2 (- fexp kx) <= inject_Z (2 ^ (ky - fexp kx))).
      { rewrite <- pow2_inject by lia.
        replace (ky - fexp kx)%Z with (ky + - fexp kx)%Z by lia. rewrite pow2_add.
        apply Qmult_le_compat_r; [|apply Qlt_le_weak, pow2_pos].
        apply Qlt_le_weak. eapply Qlt_le_trans; [exact Hx2|]. apply pow2_le; lia. }
      apply rhe_mono in H1. rewrite rhe_Z in H1.
      rewrite Zle_Qle in H1. rewrite <- pow2_inject in H1 by lia.
      rewrite (pow2_split ky (fexp kx)).
      apply Qmult_le_compat_r; [exact H1 | apply Qlt_le_weak, pow2_pos].
    + assert (H1 : inject_Z (2 ^ 52) <= y * pow2 (- fexp ky)).
      { rewrite <- pow2_inject by lia. rewrite Hey.
        assert (E52 : pow2 52 == pow2 ky * pow2 (- (ky - 52))).
        { rewrite <- pow2_add. now replace (ky + - (ky - 52))%Z with 52%Z by lia. }
        rewrite E52.
        apply Qmult_le_compat_r; [exact Hy1 | apply Qlt_le_weak, pow2_pos]. }
      apply rhe_mono in H1. rewrite rhe_Z in H1.
      rewrite Zle_Qle in H1. rewrite <- pow2_inject in H1 by lia.
      rewrite Hey in *.
      assert (Eky : pow2 ky == pow2 52 * pow2 (ky - 52)).
      { rewrite <- pow2_add. now replace (52 + (ky - 52))%Z with ky by lia. }
      rewrite Eky.
      apply Qmult_le_compat_r; [exact H1 | apply Qlt_le_weak, pow2_pos].
Qed.

Lemma RN_nonneg x : 0 <= x -> 0 <= RN x.
Proof.
  intros Hx. unfold RN. destruct (Qcompare x 0) eqn:C.
  - lra.
  - rewrite <- Qlt_alt in C. lra.
  - now apply RNpos_nonneg.
Qed.

Lemma RN_mono x y : 0 <= x -> x <= y -> RN x <= RN y.
Proof.
  intros Hx Hxy. unfold RN at 1. destruct (Qcompare x 0) eqn:C.
  - apply RN_nonneg. lra.
  - rewrite <- Qlt_alt in C. lra.
  - rewrite <- Qgt_alt in C. unfold RN. destruct (Qcompare y 0) eqn:D.
    + rewrite <- Qeq_alt in D. lra.
    + rewrite <- Qlt_alt in D. lra.
    + now apply RNpos_mono.
Qed.

Lemma to_int_floor x : 0 <= x -> to_int x = Qfloor x.
Proof.
  intros Hx. destruct x as [p q]. unfold to_int, Qfloor. simpl.
  unfold Qle in Hx. simpl in Hx. apply Z.quot_div_nonneg; lia.
Qed.

Lemma to_int_mono x y : 0 <= x -> x <= y -> (to_int x <= to_int y)%Z.
Proof.
  intros Hx Hxy. rewrite !to_int_floor by lra. now apply Qfloor_resp_le.
Qed.

Lemma to_int_bounds x (n : Z) : 0 <= x -> x <= inject_Z n -> (0 <= to_int x <= n)%Z.
Proof.
  intros Hx Hn. rewrite to_int_floor by exact Hx. split.
  - rewrite <- (Qfloor_Z 0). now apply Qfloor_resp_le.
  - rewrite <- (Qfloor_Z n). now apply Qfloor_resp_le.
Qed.

Lemma RN_0 : RN 0 == 0.
Proof. reflexivity. Qed.

Lemma RN_1 : RN 1 == 1.
Proof. vm_compute. reflexivity. Qed.

Lemma RN_100 : RN 100 == 100.
Proof. vm_compute. reflexivity. Qed.

Lemma in_upto (n : nat) (z : Z) : (0 <= z <= Z.of_nat n)%Z -> In z (upto n).
Proof.
  intros Hz. unfold upto. apply in_map_iff. exists (Z.to_nat z). split; [lia|].
  apply in_seq. lia.
Qed.

End PyFloatFacts.

(** ** The percentage [int((m / n) * 100)] *)

Section Percent.
Import PyFloat PyFloatFacts.
Local Open Scope Q_scope.

Lemma ratio_nonneg (m n : nat) : 0 <= inject_Z (Z.of_nat m) / inject_Z (Z.of_nat n).
Proof.
  destruct n as [|n].
  - unfold Qdiv. simpl. change (/ inject_Z 0) with 0. rewrite !Qmult_0_r. discriminate.
  - apply Qle_shift_div_l.
    + change 0 with (inject_Z 0). rewrite <- Zlt_Qlt. lia.
    + rewrite Qmult_0_l. change 0 with (inject_Z 0). rewrite <- Zle_Qle. lia.
Qed.

Lemma ratio_mono (m m' n : nat) :
  (m <= m')%nat ->
  inject_Z (Z.of_nat m) / inject_Z (Z.of_nat n) <= inject_Z (Z.of_nat m') / inject_Z (Z.of_nat n).
Proof.
  intros Hm. destruct n as [|n].
  - unfold Qdiv. simpl. change (/ inject_Z 0) with 0. rewrite !Qmult_0_r. discriminate.
  - unfold Qdiv. apply Qmult_le_compat_r.
    + rewrite <- Zle_Qle. lia.
    + apply Qlt_le_weak, Qinv_lt_0_compat.
      change 0 with (inject_Z 0). rewrite <- Zlt_Qlt. lia.
Qed.

Lemma ratio_le_1 (m n : nat) :
  (m <= n)%nat -> inject_Z (Z.of_nat m) / inject_Z (Z.of_nat n) <= 1.
Proof.
  intros Hm. destruct n as [|n].
  - unfold Qdiv. simpl. change (/ inject_Z 0) with 0. rewrite !Qmult_0_r. discriminate.
  - apply Qle_shift_div_r.
    + change 0 with (inject_Z 0). rewrite <- Zlt_Qlt. lia.
    + rewrite Qmult_1_l. rewrite <- Zle_Qle. lia.
Qed.

Lemma truediv_nonneg (m n : nat) : 0 <= truediv (Z.of_nat m) (Z.of_nat n).
Proof. apply RN_nonneg, ratio_nonneg. Qed.

Lemma truediv_le_1 (m n : nat) : (m <= n)%nat -> truediv (Z.of_nat m) (Z.of_nat n) <= 1.
Proof.
  intros Hm. rewrite <- RN_1. apply RN_mono; [apply ratio_nonneg | now apply ratio_le_1].
Qed.

Lemma of_int_100 : of_int 100 == 100.
Proof. vm_compute. reflexivity. Qed.

(** The percentage of a part of a whole lies between 0 and 100. *)
Lemma percent_range (m n : nat) : (m <= n)%nat -> (0 <= percent m n <= 100)%Z.
Proof.
  intros Hm. unfold percent, fmul.
  pose proof (truediv_nonneg m n) as H0. pose proof (truediv_le_1 m n Hm) as H1.
  set (x := truediv _ _) in *.
  assert (Hx0 : 0 <= x * of_int 100) by (rewrite of_int_100; lra).
  assert (Hx1 : x * of_int 100 <= 100) by (rewrite of_int_100; lra).
  apply (to_int_bounds _ 100).
  - now apply RN_nonneg.
  - change (inject_Z 100) with 100. rewrite <- RN_100. now apply RN_mono.
Qed.

(** The percentage grows with the part. *)
Lemma percent_mono (m m' n : nat) : (m <= m')%nat -> (percent m n <= percent m' n)%Z.
Proof.
  intros Hm. unfold percent, fmul.
  pose proof (truediv_nonneg m n) as H0.
  assert (H1 : truediv (Z.of_nat m) (Z.of_nat n) <= truediv (Z.of_nat m') (Z.of_nat n)).
  { apply RN_mono; [apply ratio_nonneg | now apply ratio_mono]. }
  set (x := truediv (Z.of_nat m) _) in *. set (y := truediv (Z.of_nat m') _) in *.
  assert (Hx0 : 0 <= x * of_int 100) by (rewrite of_int_100; lra).
  assert (Hxy : x * of_int 100 <= y * of_int 100) by (rewrite of_int_100; lra).
  apply to_int_mono; [now apply RN_nonneg | now apply RN_mono].
Qed.

Lemma of_int_mono (a b : Z) : (0 <= a <= b)%Z -> 0 <= of_int a <= of_int b.
Proof.
  intros Hab. unfold of_int. split.
  - apply RN_nonneg. change 0 with (inject_Z 0). rewrite <- Zle_Qle. lia.
  - apply RN_mono.
    + change 0 with (inject_Z 0). rewrite <- Zle_Qle. lia.
    + rewrite <- Zle_Qle. lia.
Qed.

Lemma weighted_70 : fmul (of_int 100) lit_0_7 == 70.
Proof. vm_compute. reflexivity. Qed.

Lemma weighted_30 : fmul (of_int 100) lit_0_3 == 30.
Proof. vm_compute. reflexivity. Qed.

Lemma lit_0_7_pos : 0 <= lit_0_7.
Proof. vm_compute. discriminate. Qed.

Lemma lit_0_3_pos : 0 <= lit_0_3.
Proof. vm_compute. discriminate. Qed.

Lemma weighted_range (s : Z) (w : Q) :
  (0 <= s <= 100)%Z -> 0 <= w -> 0 <= fmul (of_int s) w <= fmul (of_int 100) w.
Proof.
  intros Hs Hw. destruct (of_int_mono 0 s ltac:(lia)) as [_ H0].
  destruct (of_int_mono s 100 ltac:(lia)) as [_ H1].
  assert (Hz : of_int 0 == 0) by reflexivity. rewrite Hz in H0.
  unfold fmul. split.
  - apply RN_nonneg. now apply Qmult_le_0_compat.
  - apply RN_mono; [now apply Qmult_le_0_compat | now apply Qmult_le_compat_r].
Qed.

(** The weighted score of two percentages lies between 0 and 100. *)
Lemma overall_range (s k : Z) :
  (0 <= s <= 100)%Z -> (0 <= k <= 100)%Z -> (0 <= overall_of s k <= 100)%Z.
Proof.
  intros Hs Hk. unfold overall_of, fadd.
  destruct (weighted_range s lit_0_7 Hs lit_0_7_pos) as [Ha0 Ha1].
  destruct (weighted_range k lit_0_3 Hk lit_0_3_pos) as [Hb0 Hb1].
  rewrite weighted_70 in Ha1. rewrite weighted_30 in Hb1.
  set (a := fmul (of_int s) _) in *. set (b := fmul (of_int k) _) in *.
  apply (to_int_bounds _ 100).
  - apply RN_nonneg. lra.
  - change (inject_Z 100) with 100. rewrite <- RN_100. apply RN_mono; lra.
Qed.

End Percent.

(** ** The model of floats agrees with the Standard Library's binary64 *)

Section Binary64.
Import PyFloat PyFloatFacts.

Lemma literals_agree : agrees b64_0_7 lit_0_7 = true /\ agrees b64_0_3 lit_0_3 = true.
Proof. split; vm_compute; reflexivity. Qed.

(** Every quotient [m / n] and percentage [(m / n) * 100] with
    [m <= n <= 64] is the one [SpecFloat] computes; the vocabularies have 53
    and 21 entries, so the pipeline never leaves this range. *)
Lemma percent_agrees :
  forallb (fun n =>
    forallb (fun m =>
      agrees (b64_div (b64_of_Z m) (b64_of_Z n)) (truediv m n) &&
      agrees (b64_mul (b64_div (b64_of_Z m) (b64_of_Z n)) (b64_of_Z 100))
             (fmul (truediv m n) (of_int 100)))
      (upto (Z.to_nat n)))
    (map Z.succ (upto 63)) = true.
Proof. vm_cast_no_check (eq_refl true). Qed.

(** Every product [s * 0.7] and [k * 0.3] of a percentage is the one
    [SpecFloat] computes. *)
Lemma weighted_agrees :
  forallb (fun s =>
    agrees (b64_mul (b64_of_Z s) b64_0_7) (fmul (of_int s) lit_0_7) &&
    agrees (b64_mul (b64_of_Z s) b64_0_3) (fmul (of_int s) lit_0_3))
    (upto 100) = true.
Proof. vm_cast_no_check (eq_refl true). Qed.

(** Every sum of two such products is the one [SpecFloat] computes. *)
Lemma overall_agrees :
  let xs := map (fun s => (b64_mul (b64_of_Z s) b64_0_7, fmul (of_int s) lit_0_7)) (upto 100) in
  let ys := map (fun k => (b64_mul (b64_of_Z k) b64_0_3, fmul (of_int k) lit_0_3)) (upto 100) in
  forallb (fun x => forallb (fun y => agrees (b64_add x.1 y.1) (fadd x.2 y.2)) ys) xs = true.
Proof. vm_cast_no_check (eq_refl true). Qed.

End Binary64.

(** ** Sets of skills *)

Lemma size_elements (X : gset string) : size X = length (elements X).
Proof. reflexivity. Qed.

Lemma lower_set_empty (l : list string) : lower_set l = ∅ <-> l = [].
Proof.
  unfold lower_set. split.
  - destruct l as [|x l]; [done|]. simpl. intros E.
    assert (Hx : PyStr.lower x ∈ (∅ : gset string)) by (rewrite <- E; set_solver).
    set_solver.
  - intros ->. done.
Qed.

Lemma skill_match_of_range (resume_skills jd_skills : gset string) :
  (0 <= skill_match_of resume_skills jd_skills <= 100)%Z.
Proof.
  unfold skill_match_of. destruct (decide (jd_skills = ∅)); [lia|].
  apply percent_range. apply subseteq_size, intersection_subseteq_r.
Qed.

Lemma keyword_coverage_of_range (text : string) (jd_keywords : gset string) :
  (0 <= keyword_coverage_of text jd_keywords <= 100)%Z.
Proof.
  unfold keyword_coverage_of. destruct (decide (jd_keywords = ∅)); [lia|].
  apply percent_range. rewrite size_elements. apply List.filter_length_le.
Qed.

Lemma skill_match_of_mono (resume1 resume2 jd_skills : gset string) :
  resume1 ⊆ resume2 ->
  (skill_match_of resume1 jd_skills <= skill_match_of resume2 jd_skills)%Z.
Proof.
  intros Hsub. unfold skill_match_of. destruct (decide (jd_skills = ∅)); [lia|].
  apply percent_mono. apply subseteq_size. now apply intersection_mono_r.
Qed.

(** ** Scores *)

(** C4: for every resume and every job description, the three scores
    returned by [compare_resume_jd] are integers between 0 and 100. *)
Theorem scores_in_range (resume_data : ResumeData) (jd_data : JobData) :
  let r := compare_resume_jd resume_data jd_data in
  (0 <= skill_match r <= 100)%Z /\
  (0 <= keyword_coverage r <= 100)%Z /\
  (0 <= overall_score r <= 100)%Z.
Proof.
  simpl.
  pose proof (skill_match_of_range
                (lower_set (default [] (rd_skills resume_data)))
                (lower_set (default [] (jd_required_skills jd_data)))) as Hs.
  pose proof (keyword_coverage_of_range
                (PyStr.lower (default EmptyString (rd_text resume_data)))
                (lower_set (default [] (jd_keywords jd_data)))) as Hk.
  split; [exact Hs|]. split; [exact Hk|].
  now apply overall_range.
Qed.

(** C5: an empty set of required skills gives a skill match of 100, and an
    empty set of keywords gives a keyword coverage of 100. *)
Theorem vacuous_match (resume_data : ResumeData) (jd_data : JobData) :
  (lower_set (default [] (jd_required_skills jd_data)) = ∅ ->
   skill_match (compare_resume_jd resume_data jd_data) = 100%Z) /\
  (lower_set (default [] (jd_keywords jd_data)) = ∅ ->
   keyword_coverage (compare_resume_jd resume_data jd_data) = 100%Z).
Proof.
  split; intros E; simpl.
  - unfold skill_match_of. now rewrite decide_True.
  - unfold keyword_coverage_of. now rewrite decide_True.
Qed.

Lemma vacuous_match_witness :
  let jd := {| jd_text := Some "no known term"; jd_required_skills := Some [];
               jd_keywords := None |} in
  let rd := {| rd_text := Some "python"; rd_name := None; rd_email := None;
               rd_phone := None; rd_skills := Some ["Python"] |} in
  skill_match (compare_resume_jd rd jd) = 100%Z /\
  keyword_coverage (compare_resume_jd rd jd) = 100%Z.
Proof.
  intros jd rd. split.
  - apply (proj1 (vacuous_match rd jd)). reflexivity.
  - apply (proj2 (vacuous_match rd jd)). reflexivity.
Defined.

(** C9: for a fixed job description with a non-empty set of required
    skills, a resume whose skill set contains the skill set of another
    resume has a skill match at least as high. *)
Theorem skill_match_monotone (resume1 resume2 : ResumeData) (jd_data : JobData) :
  lower_set (default [] (jd_required_skills jd_data)) <> ∅ ->
  lower_set (default [] (rd_skills resume1)) ⊆ lower_set (default [] (rd_skills resume2)) ->
  (skill_match (compare_resume_jd resume1 jd_data)
   <= skill_match (compare_resume_jd resume2 jd_data))%Z.
Proof.
  intros _ Hsub. simpl. now apply skill_match_of_mono.
Qed.

Lemma skill_match_monotone_witness :
  let jd := {| jd_text := None; jd_required_skills := Some ["Python"; "Docker"; "Kubernetes"];
               jd_keywords := None |} in
  let rd1 := {| rd_text := None; rd_name := None; rd_email := None; rd_phone := None;
                rd_skills := Some ["Python"] |} in
  let rd2 := {| rd_text := None; rd_name := None; rd_email := None; rd_phone := None;
                rd_skills := Some ["Docker"; "Python"] |} in
  (skill_match (compare_resume_jd rd1 jd) <= skill_match (compare_resume_jd rd2 jd))%Z.
Proof.
  intros jd rd1 rd2. apply (skill_match_monotone rd1 rd2 jd).
  - apply (bool_decide_unpack _). vm_compute. exact I.
  - apply (bool_decide_unpack _). vm_compute. exact I.
Defined.

Example skill_match_values :
  skill_match_of (lower_set ["Python"]) (lower_set ["Python"; "Docker"; "Kubernetes"]) = 33%Z /\
  skill_match_of (lower_set ["Docker"; "Python"]) (lower_set ["Python"; "Docker"; "Kubernetes"]) = 66%Z /\
  percent 29 50 = 57%Z.
Proof. repeat split; vm_compute; reflexivity. Qed.

(** ** Substrings, suffixes and characters *)

Lemma append_cons (c : ascii) (p q : string) : String c p +:+ q = String c (p +:+ q).
Proof. reflexivity. Qed.

Lemma append_nil (q : string) : EmptyString +:+ q = q.
Proof. reflexivity. Qed.

Lemma prefix_spec (p s : string) :
  String.prefix p s = true <-> exists post, s = p +:+ post.
Proof.
  revert s. induction p as [|a p IH]; intros s.
  - destruct s; split; eauto.
  - destruct s as [|b s]; simpl.
    + split; [discriminate | intros [post E]; discriminate].
    + destruct (ascii_dec a b) as [->|Hab].
      * rewrite IH. split; intros [post E]; exists post;
          rewrite append_cons in *; congruence.
      * split; [discriminate | intros [post E]; rewrite append_cons in E; congruence].
Qed.

Lemma contains_spec (needle hay : string) :
  PyStr.contains needle hay = true <-> occurs_in needle hay.
Proof.
  unfold occurs_in. induction hay as [|c hay IH]; cbn [PyStr.contains].
  - rewrite orb_false_r, prefix_spec. split.
    + intros [post E]. exists EmptyString, post. exact E.
    + intros [pre [post E]]. destruct pre; [eauto | discriminate].
  - rewrite orb_true_iff, prefix_spec, IH. split.
    + intros [[post E] | [pre [post E]]].
      * exists EmptyString, post. exact E.
      * exists (String c pre), post. rewrite append_cons. congruence.
    + intros [pre [post E]]. destruct pre as [|c' pre].
      * left. eauto.
      * right. exists pre, post. rewrite append_cons in E. congruence.
Qed.

Lemma endswith_spec (suffix s : string) :
  PyStr.endswith suffix s = true <-> has_suffix suffix s.
Proof.
  unfold has_suffix. induction s as [|c s IH]; cbn [PyStr.endswith].
  - rewrite orb_false_r, String.eqb_eq. split.
    + intros <-. exists EmptyString. reflexivity.
    + intros [pre E]. destruct pre; [exact E | discriminate].
  - rewrite orb_true_iff, String.eqb_eq, IH. split.
    + intros [<- | [pre E]].
      * exists EmptyString. reflexivity.
      * exists (String c pre). rewrite append_cons. congruence.
    + intros [pre E]. destruct pre as [|c' pre].
      * left. exact E.
      * right. exists pre. rewrite append_cons in E. congruence.
Qed.

Lemma any_char_spec (p : ascii -> bool) (s : string) :
  PyStr.any_char p s = true <-> exists c, In c (PyStr.chars s) /\ p c = true.
Proof.
  induction s as [|a s IH]; simpl.
  - split; [discriminate | intros [c [[] _]]].
  - rewrite orb_true_iff, IH. split.
    + intros [Ha | [c [Hc Hp]]]; [exists a | exists c]; auto.
    + intros [c [[<- | Hc] Hp]]; [left | right]; eauto.
Qed.

Lemma contains_char_spec (c : ascii) (s : string) :
  PyStr.contains (String c EmptyString) s = true <-> In c (PyStr.chars s).
Proof.
  induction s as [|a s IH]; simpl.
  - split; [discriminate | intros []].
  - rewrite orb_true_iff, IH. destruct (ascii_dec c a) as [->|Hca].
    + split; auto. intros _. left. now destruct s.
    + split.
      * intros [H | H]; [discriminate | now right].
      * intros [H | H]; [congruence | now right].
Qed.

Lemma length_append (p q : string) :
  String.length (p +:+ q) = (String.length p + String.length q)%nat.
Proof. induction p as [|c p IH]; [reflexivity|]. rewrite append_cons. simpl. now rewrite IH. Qed.

(** Of two suffixes of a string, the shorter is a suffix of the longer. *)
Lemma suffixes_nest (a b s : string) :
  has_suffix a s -> has_suffix b s -> (String.length a <= String.length b)%nat ->
  has_suffix a b.
Proof.
  intros [p1 E1] [p2 E2] Hlen. subst s. revert p1 E2.
  induction p2 as [|c p2 IH]; intros p1 E.
  - exists p1. rewrite append_nil in E. now symmetry.
  - destruct p1 as [|c' p1].
    + rewrite append_nil in E. subst a.
      rewrite append_cons in Hlen. simpl in Hlen. rewrite length_append in Hlen. lia.
    + rewrite !append_cons in E. injection E as _ E. now apply (IH p1).
Qed.

(** A path cannot end in two of the extensions at once. *)
Lemma extensions_exclusive (s : string) :
  (PyStr.endswith ".pdf" s = true -> PyStr.endswith ".docx" s = false /\ PyStr.endswith ".txt" s = false) /\
  (PyStr.endswith ".docx" s = true -> PyStr.endswith ".txt" s = false).
Proof.
  assert (excl : forall a b, (String.length a <= String.length b)%nat ->
                   PyStr.endswith a b = false ->
                   PyStr.endswith a s = true -> PyStr.endswith b s = false).
  { intros a b Hlen Hab Ha. destruct (PyStr.endswith b s) eqn:Hb; [|reflexivity].
    rewrite endswith_spec in Ha, Hb.
    pose proof (suffixes_nest a b s Ha Hb Hlen) as Hn.
    rewrite <- endswith_spec in Hn. congruence. }
  split; [intros Hp; split | intros Hd].
  - apply (excl ".pdf" ".docx"); [simpl; lia | reflexivity | exact Hp].
  - apply (excl ".pdf" ".txt"); [simpl; lia | reflexivity | exact Hp].
  - destruct (PyStr.endswith ".txt" s) eqn:Ht; [|reflexivity].
    pose proof (excl ".txt" ".docx" ltac:(simpl; lia) eq_refl Ht). congruence.
Qed.

(** ** Text extraction is chosen by the extension *)

Section Dispatch.
Context `{Externals}.

Lemma resume_text_cases (fs : files) (file_path : string) :
  let p := PyStr.lower file_path in
  (has_suffix ".pdf" p -> resume_text fs file_path = extract_text_from_pdf fs file_path) /\
  (has_suffix ".docx" p -> resume_text fs file_path = extract_text_from_docx fs file_path) /\
  (~ has_suffix ".pdf" p -> ~ has_suffix ".docx" p ->
   resume_text fs file_path = "Unsupported file format") /\
  (has_suffix ".txt" p -> resume_text fs file_path = "Unsupported file format").
Proof.
  intros p. unfold resume_text. fold p.
  destruct (extensions_exclusive p) as [Hpdf Hdocx].
  rewrite <- !endswith_spec.
  destruct (PyStr.endswith ".pdf" p) eqn:E1.
  { destruct (Hpdf eq_refl) as [-> ->]. repeat split; try discriminate; congruence. }
  destruct (PyStr.endswith ".docx" p) eqn:E2.
  { rewrite (Hdocx eq_refl). repeat split; try discriminate; congruence. }
  repeat split; try discriminate; reflexivity.
Qed.

Lemma job_description_text_cases (fs : files) (file_path : string) :
  let p := PyStr.lower file_path in
  (has_suffix ".pdf" p -> job_description_text fs file_path = extract_text_from_pdf fs file_path) /\
  (has_suffix ".docx" p -> job_description_text fs file_path = extract_text_from_docx fs file_path) /\
  (has_suffix ".txt" p -> job_description_text fs file_path = extract_text_from_txt fs file_path) /\
  (~ has_suffix ".pdf" p -> ~ has_suffix ".docx" p -> ~ has_suffix ".txt" p ->
   job_description_text fs file_path = "Unsupported file format").
Proof.
  intros p. unfold job_description_text. fold p.
  destruct (extensions_exclusive p) as [Hpdf Hdocx].
  rewrite <- !endswith_spec.
  destruct (PyStr.endswith ".pdf" p) eqn:E1.
  { destruct (Hpdf eq_refl) as [-> ->]. repeat split; try discriminate; congruence. }
  destruct (PyStr.endswith ".docx" p) eqn:E2.
  { rewrite (Hdocx eq_refl). repeat split; try discriminate; congruence. }
  destruct (PyStr.endswith ".txt" p) eqn:E3; repeat split; try discriminate; congruence.
Qed.

(** C7: the text of a document is chosen by the extension of the
    lower-cased path.  A resume is read as PDF or DOCX and every other
    extension, [.txt] included, gives the text "Unsupported file format"; a
    job description is read as PDF, DOCX or plain text and every other
    extension gives the same text. *)
Theorem dispatch_by_extension (fs : files) (file_path : string) :
  let p := PyStr.lower file_path in
  let resume := rd_text (parse_resume fs file_path) in
  let job := jd_text (parse_job_description fs file_path) in
  (has_suffix ".pdf" p -> resume = Some (extract_text_from_pdf fs file_path)) /\
  (has_suffix ".docx" p -> resume = Some (extract_text_from_docx fs file_path)) /\
  (~ has_suffix ".pdf" p -> ~ has_suffix ".docx" p -> resume = Some "Unsupported file format") /\
  (has_suffix ".txt" p -> resume = Some "Unsupported file format") /\
  (has_suffix ".pdf" p -> job = Some (extract_text_from_pdf fs file_path)) /\
  (has_suffix ".docx" p -> job = Some (extract_text_from_docx fs file_path)) /\
  (has_suffix ".txt" p -> job = Some (extract_text_from_txt fs file_path)) /\
  (~ has_suffix ".pdf" p -> ~ has_suffix ".docx" p -> ~ has_suffix ".txt" p ->
   job = Some "Unsupported file format").
Proof.
  intros p resume job. subst resume job. cbn [parse_resume parse_job_description rd_text jd_text].
  destruct (resume_text_cases fs file_path) as (R1 & R2 & R3 & R4).
  destruct (job_description_text_cases fs file_path) as (J1 & J2 & J3 & J4).
  fold p in R1, R2, R3, R4, J1, J2, J3, J4.
  repeat split; intros; f_equal; auto.
Qed.

End Dispatch.

Lemma dispatch_by_extension_witness :
  let fs : files := {[ "uploads/Notes.TXT" := list_byte_of_string "python and docker" ]} in
  rd_text (@parse_resume plain_externals fs "uploads/Notes.TXT") = Some "Unsupported file format" /\
  jd_text (@parse_job_description plain_externals fs "uploads/Notes.TXT") = Some "python and docker".
Proof.
  intros fs.
  pose proof (@dispatch_by_extension plain_externals fs "uploads/Notes.TXT")
    as (_ & _ & _ & R & _ & _ & J & _).
  split.
  - apply R. exists "uploads/notes". reflexivity.
  - rewrite J; [reflexivity | exists "uploads/notes"; reflexivity].
Defined.

(** ** The name heuristic *)

Lemma name_cond_spec (line : string) :
  ((0 <? String.length line)%nat && (length (PyStr.split_ws line) <=? 4)%nat = true /\
   negb (PyStr.any_char PyStr.isdigit line) && negb (PyStr.contains "@" line) = true)
  <-> name_like line.
Proof.
  unfold name_like.
  rewrite !andb_true_iff, !negb_true_iff, Nat.ltb_lt, Nat.leb_le.
  rewrite <- !not_true_iff_false, any_char_spec, contains_char_spec.
  split.
  - intros [[Hlen Htok] [Hdig Hat]]. repeat split; auto.
    + intros ->. simpl in Hlen. lia.
    + intros c Hc. apply not_true_iff_false. intros Hd. apply Hdig. eauto.
  - intros (Hne & Htok & Hdig & Hat). repeat split; auto.
    + destruct line; [congruence | simpl; lia].
    + intros [c [Hc Hd]]. rewrite (Hdig c Hc) in Hd. discriminate.
Qed.

Lemma name_loop_accept (line : string) (rest : list string) :
  name_like (PyStr.strip line) -> name_loop (line :: rest) = PyStr.strip line.
Proof.
  intros Hn. apply name_cond_spec in Hn as [H1 H2].
  cbn [name_loop]. cbv zeta. now rewrite H1, H2.
Qed.

Lemma name_loop_reject (line : string) (rest : list string) :
  ~ name_like (PyStr.strip line) -> name_loop (line :: rest) = name_loop rest.
Proof.
  intros Hn. cbn [name_loop]. cbv zeta.
  destruct ((0 <? String.length (PyStr.strip line))%nat &&
            (length (PyStr.split_ws (PyStr.strip line)) <=? 4)%nat) eqn:E1; [|reflexivity].
  destruct (negb (PyStr.any_char PyStr.isdigit (PyStr.strip line)) &&
            negb (PyStr.contains "@" (PyStr.strip line))) eqn:E2; [|reflexivity].
  exfalso. apply Hn, name_cond_spec. auto.
Qed.

Lemma name_loop_first (lines : list string) (i : nat) (l : string) :
  map PyStr.strip lines !! i = Some l ->
  name_like l ->
  (forall j l', (j < i)%nat -> map PyStr.strip lines !! j = Some l' -> ~ name_like l') ->
  name_loop lines = l.
Proof.
  revert i. induction lines as [|line rest IH]; intros i Hi Hl Hbefore.
  - discriminate.
  - destruct i as [|i].
    + injection Hi as <-. now apply name_loop_accept.
    + rewrite name_loop_reject.
      * apply (IH i); [exact Hi | exact Hl |].
        intros j l' Hj Hj'. apply (Hbefore (S j) l'); [lia | exact Hj'].
      * apply (Hbefore 0%nat); [lia | reflexivity].
Qed.

Lemma name_loop_none (lines : list string) :
  (forall l, In l (map PyStr.strip lines) -> ~ name_like l) ->
  name_loop lines = "Name not found".
Proof.
  induction lines as [|line rest IH]; intros Hall; [reflexivity|].
  rewrite name_loop_reject.
  - apply IH. intros l Hl. apply Hall. now right.
  - apply Hall. now left.
Qed.

(** C8: [extract_name] looks at the first five lines at most and returns
    the first of them that, once stripped, is not empty, has at most four
    tokens, no digit and no [@]; without such a line it returns
    "Name not found".  On the three lines Jane Doe / Software Engineer /
    jane@x.com it returns "Jane Doe". *)
Theorem extract_name_first_name_like (text : string) :
  let lines := map PyStr.strip (firstn 5 (PyStr.split_on "010"%char text)) in
  (length lines <= 5)%nat /\
  (forall i l,
      lines !! i = Some l -> name_like l ->
      (forall j l', (j < i)%nat -> lines !! j = Some l' -> ~ name_like l') ->
      extract_name text = l) /\
  ((forall l, In l lines -> ~ name_like l) -> extract_name text = "Name not found") /\
  extract_name ("Jane Doe" +:+ nl +:+ "Software Engineer" +:+ nl +:+ "jane@x.com") = "Jane Doe".
Proof.
  intros lines. subst lines. unfold extract_name. cbv zeta. repeat split.
  - rewrite length_map, length_firstn. lia.
  - intros i l. apply name_loop_first.
  - apply name_loop_none.
Qed.

Lemma extract_name_first_name_like_witness :
  extract_name ("123 Main Street" +:+ nl +:+ "Jane Doe" +:+ nl +:+ "Engineer") = "Jane Doe".
Proof.
  pose proof (extract_name_first_name_like
                ("123 Main Street" +:+ nl +:+ "Jane Doe" +:+ nl +:+ "Engineer"))
    as (_ & Hfirst & _).
  apply (Hfirst 1%nat).
  - reflexivity.
  - apply name_cond_spec. split; reflexivity.
  - intros j l' Hj Hl'. destruct j as [|j]; [|lia].
    injection Hl' as <-. intros Hn. apply name_cond_spec in Hn as [_ Hn]. discriminate Hn.
Defined.

Example extract_name_none :
  extract_name ("jane@x.com" +:+ nl +:+ "555 1234") = "Name not found".
Proof. reflexivity. Qed.

Example extract_name_sixth_line :
  extract_name ("1" +:+ nl +:+ "2" +:+ nl +:+ "3" +:+ nl +:+ "4" +:+ nl +:+ "5" +:+ nl +:+ "Jane Doe")
  = "Name not found".
Proof. reflexivity. Qed.

(** ** Skills and keywords found in a text *)

Lemma found_terms_filter (vocabulary : list string) (text : string) :
  found_terms vocabulary text =
  map PyStr.title
      (List.filter (fun term => PyStr.contains term (PyStr.lower text)) vocabulary).
Proof.
  unfold found_terms.
  set (f := fun term => PyStr.contains term (PyStr.lower text)).
  assert (G : forall acc,
             fold_left (fun found term => if f term then found ++ [PyStr.title term] else found)
                       vocabulary acc
             = acc ++ map PyStr.title (List.filter f vocabulary)).
  { induction vocabulary as [|t v IH]; intros acc; simpl.
    - now rewrite app_nil_r.
    - rewrite IH. destruct (f t); [|reflexivity]. simpl. now rewrite <- app_assoc. }
  apply (G []).
Qed.

Lemma in_list_set (found : list string) (x : string) : In x (list_set found) <-> In x found.
Proof.
  unfold list_set. rewrite <- !list_elem_of_In, elem_of_elements, elem_of_list_to_set.
  reflexivity.
Qed.

Lemma list_set_NoDup (found : list string) : List.NoDup (list_set found).
Proof. apply NoDup_ListNoDup. unfold list_set. apply NoDup_elements. Qed.

Lemma vocabularies_lowercase :
  Forall (fun term => PyStr.lower term = term) skill_keywords /\
  Forall (fun term => PyStr.lower term = term) keywords.
Proof. split; repeat constructor. Qed.

Lemma found_terms_sound (vocabulary : list string) (text x : string) :
  Forall (fun term => PyStr.lower term = term) vocabulary ->
  In x (list_set (found_terms vocabulary text)) ->
  exists term, In term vocabulary /\ x = PyStr.title term /\
               occurs_in (PyStr.lower term) (PyStr.lower text).
Proof.
  intros Hlow Hx. rewrite in_list_set, found_terms_filter in Hx.
  apply in_map_iff in Hx as [term [<- Hterm]].
  apply filter_In in Hterm as [Hin Hc].
  exists term. repeat split; [exact Hin|].
  rewrite List.Forall_forall in Hlow. rewrite (Hlow term Hin).
  now apply contains_spec.
Qed.

(** C10: every skill (keyword) returned for a text is the title-cased
    form of an entry of the skill (keyword) vocabulary whose lower-case form
    occurs in the lower-cased text, and no element is returned twice. *)
Theorem extracted_terms_from_vocabulary (text : string) :
  (forall x, In x (extract_skills text) ->
     exists term, In term skill_keywords /\ x = PyStr.title term /\
                  occurs_in (PyStr.lower term) (PyStr.lower text)) /\
  List.NoDup (extract_skills text) /\
  (forall x, In x (extract_keywords text) ->
     exists term, In term keywords /\ x = PyStr.title term /\
                  occurs_in (PyStr.lower term) (PyStr.lower text)) /\
  List.NoDup (extract_keywords text).
Proof.
  destruct vocabularies_lowercase as [Hs Hk]. unfold extract_skills, extract_keywords.
  repeat split.
  - intros x. now apply found_terms_sound.
  - apply list_set_NoDup.
  - intros x. now apply found_terms_sound.
  - apply list_set_NoDup.
Qed.

Lemma extracted_terms_from_vocabulary_witness :
  exists term, In term skill_keywords /\ "Api" = PyStr.title term /\
               occurs_in (PyStr.lower term) (PyStr.lower "Built APIs").
Proof.
  apply (proj1 (extracted_terms_from_vocabulary "Built APIs") "Api").
  unfold extract_skills. rewrite in_list_set, found_terms_filter. vm_compute. auto.
Defined.

(** Conversely every vocabulary entry that occurs in the text is returned. *)
Lemma found_terms_complete (vocabulary : list string) (text term : string) :
  In term vocabulary -> occurs_in term (PyStr.lower text) ->
  In (PyStr.title term) (list_set (found_terms vocabulary text)).
Proof.
  intros Hin Hocc. rewrite in_list_set, found_terms_filter.
  apply in_map, filter_In. split; [exact Hin | now apply contains_spec].
Qed.

(** C2, as the claim has it: the text yields the four skills and nothing
    else.  It does not: the letter r of "React" and "Docker" is the skill
    "R". *)
Lemma four_skills_refuted :
  ~ ((list_to_set (extract_skills "Built APIs using Python and React with Docker") : gset string)
     = {[ "Python"; "React"; "Docker"; "Api" ]}).
Proof.
  intros E.
  assert (Hin : "R" ∈ (list_to_set (extract_skills "Built APIs using Python and React with Docker")
                        : gset string)).
  { unfold extract_skills.
    rewrite elem_of_list_to_set, list_elem_of_In, in_list_set, found_terms_filter.
    vm_compute. auto 10. }
  rewrite E in Hin. revert Hin. apply (bool_decide_unpack _). vm_compute. exact I.
Qed.

(** C2, amended: the text "Built APIs using Python and React with
    Docker" yields, as a set, exactly Python, React, Docker, Api and R. *)
Theorem five_skills :
  (list_to_set (extract_skills "Built APIs using Python and React with Docker") : gset string)
  = {[ "Python"; "React"; "Docker"; "Api"; "R" ]}.
Proof. vm_compute. reflexivity. Qed.

(** ** Suggestions *)

Lemma first_missing_nil (missing : gset string) :
  firstn 3 (elements missing) = [] <-> missing = ∅.
Proof.
  split.
  - intros E. apply leibniz_equiv, elements_empty_inv.
    destruct (elements missing); [reflexivity | discriminate].
  - intros ->. reflexivity.
Qed.

Lemma missing_message_not_tip (x : string) :
  ~ In ("Add these missing skills: " +:+ x) static_tips.
Proof. cbv. intuition discriminate. Qed.

(** The number of rules that fire before the static tips. *)
Lemma conditional_count (skill_match keyword_coverage : Z) (resume_skills jd_skills : gset string) :
  length (conditional_suggestions skill_match keyword_coverage resume_skills jd_skills) =
  (Nat.b2n ((skill_match <? 70)%Z && negb (bool_decide (jd_skills ∖ resume_skills = ∅)))
   + Nat.b2n (keyword_coverage <? 60)%Z
   + Nat.b2n (skill_match <? 50)%Z
   + Nat.b2n (keyword_coverage <? 50)%Z)%nat.
Proof.
  unfold conditional_suggestions.
  assert (Hm : match firstn 3 (elements (jd_skills ∖ resume_skills)) with
               | [] => bool_decide (jd_skills ∖ resume_skills = ∅) = true
               | _ => bool_decide (jd_skills ∖ resume_skills = ∅) = false
               end).
  { destruct (firstn 3 (elements (jd_skills ∖ resume_skills))) eqn:E.
    - apply bool_decide_eq_true, first_missing_nil, E.
    - apply bool_decide_eq_false. rewrite <- first_missing_nil, E. discriminate. }
  destruct (firstn 3 (elements (jd_skills ∖ resume_skills))); rewrite Hm;
    destruct (skill_match <? 70)%Z, (keyword_coverage <? 60)%Z,
             (skill_match <? 50)%Z, (keyword_coverage <? 50)%Z; reflexivity.
Qed.

(** C6, as the claim has it, at a resume without skills scoring 0 and 0
    against a job that asks for python: all four rules fire, and the cap of
    six entries cuts the last two static tips. *)
Lemma static_tips_cut :
  let r := generate_suggestions 0 0 ∅ {[ "python" ]} in
  ~ ((4 <= length r <= 6)%nat /\ forall tip, In tip static_tips -> In tip r).
Proof.
  intros r [_ Hall].
  specialize (Hall "Add a skills section with relevant technical skills").
  vm_compute in Hall. intuition discriminate.
Qed.

(** C6, amended: the list has between 4 and 6 entries; it is the first
    six of the conditional suggestions followed by the four static tips, so
    the first two static tips are always present, and all four are present
    exactly when at most two conditional suggestions were added. *)
Theorem suggestions_shape (skill_match keyword_coverage : Z) (resume_skills jd_skills : gset string) :
  let c := conditional_suggestions skill_match keyword_coverage resume_skills jd_skills in
  let r := generate_suggestions skill_match keyword_coverage resume_skills jd_skills in
  (4 <= length r <= 6)%nat /\
  r = firstn 6 (c ++ static_tips) /\
  In "Use action verbs like 'developed', 'implemented', 'managed'" r /\
  In "Include quantifiable achievements with numbers and percentages" r /\
  ((forall tip, In tip static_tips -> In tip r) <-> (length c <= 2)%nat).
Proof.
  intros c r. subst c r. unfold generate_suggestions, conditional_suggestions. cbv zeta.
  set (missing := firstn 3 (elements (jd_skills ∖ resume_skills))).
  pose proof (missing_message_not_tip (PyStr.join ", " missing)) as Hmsg.
  set (msg := "Add these missing skills: " +:+ PyStr.join ", " missing) in *.
  assert (H4 : In "Add a skills section with relevant technical skills" static_tips)
    by (simpl; auto).
  destruct missing;
    destruct (skill_match <? 70)%Z, (keyword_coverage <? 60)%Z,
             (skill_match <? 50)%Z, (keyword_coverage <? 50)%Z;
    cbn [app firstn length static_tips];
    (split; [lia|]); (split; [reflexivity|]);
    (split; [simpl; tauto|]); (split; [simpl; tauto|]);
    (split;
     [ intros Hall; try lia; exfalso; specialize (Hall _ H4); simpl in Hall, Hmsg;
       intuition discriminate
     | intros Hlen; try (exfalso; lia); intros tip Htip; simpl in Htip |- *; tauto ]).
Qed.

(** ** The weighted score in floating point *)

(** C1 fails on the code.  A PDF resume with the text "html css develop"
    against the job description "html css sql develop design implement
    manage lead build" matches 2 of 3 skills and 1 of 6 keywords: the scores
    are 66 and 16, and 66 * 0.7 + 16 * 0.3 is 51 exactly, but in binary64
    the sum is 50.99999999999999 and the program returns 50. *)
Theorem overall_score_one_short :
  let resume := upload "cv.pdf" "html css develop" in
  let job := upload "jd.txt" "html css sql develop design implement manage lead build" in
  exists results,
    (@analyze_resume plain_externals resume job ∅).1 = Ok200 results /\
    skill_match results = 66%Z /\
    keyword_coverage results = 16%Z /\
    overall_score results = 50%Z /\
    exact_weighted_floor (skill_match results) (keyword_coverage results) = 51%Z.
Proof.
  intros resume job. eexists. split; [vm_compute; reflexivity|].
  repeat split.
Qed.

(** The sum the Standard Library's binary64 computes for two percentages. *)
Lemma b64_sum_agrees (s k : Z) :
  (0 <= s <= 100)%Z -> (0 <= k <= 100)%Z ->
  PyFloat.agrees
    (PyFloat.b64_add (PyFloat.b64_mul (PyFloat.b64_of_Z s) PyFloat.b64_0_7)
                     (PyFloat.b64_mul (PyFloat.b64_of_Z k) PyFloat.b64_0_3))
    (PyFloat.fadd (PyFloat.fmul (PyFloat.of_int s) PyFloat.lit_0_7)
                  (PyFloat.fmul (PyFloat.of_int k) PyFloat.lit_0_3)) = true.
Proof.
  intros Hs Hk. pose proof overall_agrees as G. cbv zeta in G.
  rewrite forallb_forall in G.
  set (f7 := fun s => (PyFloat.b64_mul (PyFloat.b64_of_Z s) PyFloat.b64_0_7,
                       PyFloat.fmul (PyFloat.of_int s) PyFloat.lit_0_7)) in *.
  set (f3 := fun k => (PyFloat.b64_mul (PyFloat.b64_of_Z k) PyFloat.b64_0_3,
                       PyFloat.fmul (PyFloat.of_int k) PyFloat.lit_0_3)) in *.
  assert (H7 : In (f7 s) (map f7 (PyFloat.upto 100)))
    by (apply in_map, PyFloatFacts.in_upto; lia).
  assert (H3 : In (f3 k) (map f3 (PyFloat.upto 100)))
    by (apply in_map, PyFloatFacts.in_upto; lia).
  specialize (G _ H7). rewrite forallb_forall in G. exact (G _ H3).
Qed.

(** In binary64 the sum, rounded down, is the exact result or one less. *)
Lemma b64_sum_floor :
  forallb (fun s =>
    forallb (fun k =>
      match PyFloat.b64_value
              (PyFloat.b64_add (PyFloat.b64_mul (PyFloat.b64_of_Z s) PyFloat.b64_0_7)
                               (PyFloat.b64_mul (PyFloat.b64_of_Z k) PyFloat.b64_0_3)) with
      | Some q => (0 <=? Qnum q)%Z &&
                  ((Qfloor q =? exact_weighted_floor s k)%Z ||
                   (Qfloor q =? exact_weighted_floor s k - 1)%Z)
      | None => false
      end)
      (PyFloat.upto 100))
    (PyFloat.upto 100) = true.
Proof. vm_cast_no_check (eq_refl true). Qed.

(** The score the program returns is the exact weighted score rounded down,
    or one less. *)
Lemma overall_near_exact (s k : Z) :
  (0 <= s <= 100)%Z -> (0 <= k <= 100)%Z ->
  overall_of s k = exact_weighted_floor s k \/
  overall_of s k = (exact_weighted_floor s k - 1)%Z.
Proof.
  intros Hs Hk. pose proof (b64_sum_agrees s k Hs Hk) as Ha.
  pose proof b64_sum_floor as G. rewrite forallb_forall in G.
  specialize (G s (PyFloatFacts.in_upto 100 s Hs)). rewrite forallb_forall in G.
  specialize (G k (PyFloatFacts.in_upto 100 k Hk)).
  unfold PyFloat.agrees in Ha.
  destruct (PyFloat.b64_value _) as [q|]; [|discriminate].
  apply andb_true_iff in G as [Hq G]. apply Z.leb_le in Hq.
  apply Qeq_bool_eq in Ha.
  assert (Hq0 : (0 <= q)%Q) by (destruct q; unfold Qle; simpl in *; lia).
  unfold overall_of. rewrite PyFloatFacts.to_int_floor by (rewrite <- Ha; exact Hq0).
  rewrite <- Ha.
  apply orb_true_iff in G as [G | G]; apply Z.eqb_eq in G; auto.
Qed.

(** The Standard Library's binary64 gives the same sum, below 51. *)
Example b64_sum_below_51 :
  let sum := PyFloat.b64_add (PyFloat.b64_mul (PyFloat.b64_of_Z 66) PyFloat.b64_0_7)
                             (PyFloat.b64_mul (PyFloat.b64_of_Z 16) PyFloat.b64_0_3) in
  sum = S754_finite false 0x197fffffffffff (-47) /\
  (Z.pos 0x197fffffffffff < 51 * 2 ^ 47)%Z /\
  PyFloat.agrees sum (PyFloat.fadd (PyFloat.fmul (PyFloat.of_int 66) PyFloat.lit_0_7)
                                   (PyFloat.fmul (PyFloat.of_int 16) PyFloat.lit_0_3)) = true.
Proof. vm_compute. repeat split. Qed.

Example overall_values :
  overall_of 66 0 = 46%Z /\ overall_of 100 100 = 100%Z /\ overall_of 0 0 = 0%Z /\
  overall_of 6 6 = 5%Z /\ overall_of 50 50 = 50%Z.
Proof. vm_compute. repeat split. Qed.

(** ** The temporary files of a request *)

Section Cleanup.
Context `{Externals}.

(** When the handler answers 200, both temporary files are gone. *)
Lemma success_removes_uploads (resume job_description : UploadFile) (fs fs' : files)
    (results : ScoreReport) :
  analyze_resume resume job_description fs = (Ok200 results, fs') ->
  fs' !! ("uploads/" +:+ filename resume) = None /\
  fs' !! ("uploads/" +:+ filename job_description) = None.
Proof.
  unfold analyze_resume, analyze_body, write_upload, os_remove, io_read.
  unfold mbind, io_bind, mret, io_ret.
  set (rp := "uploads/" +:+ filename resume). set (jp := "uploads/" +:+ filename job_description).
  destruct (can_open_wb rp); [|discriminate].
  destruct (can_open_wb jp); [|discriminate].
  set (fs2 := <[jp:=content job_description]> (<[rp:=content resume]> fs)).
  destruct (fs2 !! rp) eqn:E1; [|discriminate].
  destruct (delete rp fs2 !! jp) eqn:E2; [|discriminate].
  intros [= _ <-]. split.
  - destruct (decide (rp = jp)) as [->|Hne].
    + apply lookup_delete_eq.
    + rewrite lookup_delete_ne by congruence. apply lookup_delete_eq.
  - apply lookup_delete_eq.
Qed.

(** X19: When the second file cannot be opened, the handler answers 500 and the
    first file stays on disk. *)
Lemma failure_keeps_upload (resume job_description : UploadFile) (fs : files) :
  can_open_wb ("uploads/" +:+ filename resume) = true ->
  can_open_wb ("uploads/" +:+ filename job_description) = false ->
  analyze_resume resume job_description fs =
  (Error500 (OSError ("uploads/" +:+ filename job_description)),
   <["uploads/" +:+ filename resume := content resume]> fs).
Proof.
  intros H1 H2.
  unfold analyze_resume, analyze_body, write_upload.
  unfold mbind, io_bind. now rewrite H1, H2.
Qed.

End Cleanup.

(** C3 fails on the code.  The job description is uploaded under the
    name "nodir/jd.txt"; the directory [uploads/nodir] does not exist, the
    second [open] raises, the handler answers 500, and the resume written
    before stays in [uploads]. *)
Theorem upload_left_behind :
  let resume := upload "cv.pdf" "html css develop" in
  let job := upload "nodir/jd.txt" "html css sql" in
  let '(answer, fs) := @analyze_resume plain_externals resume job ∅ in
  answer = Error500 (OSError "uploads/nodir/jd.txt") /\
  fs !! "uploads/cv.pdf" = Some (list_byte_of_string "html css develop").
Proof. vm_compute. split; reflexivity. Qed.

Example request_succeeds :
  let resume := upload "cv.pdf" "html css develop" in
  let job := upload "jd.txt" "html css sql develop design implement manage lead build" in
  (@analyze_resume plain_externals resume job ∅).2 = ∅.
Proof. vm_compute. reflexivity. Qed.

(** * Further properties of the program *)

(** ** More on strings *)

(** Membership in a list that is written out. *)
Ltac in_list := repeat (first [left; reflexivity | right]).

Lemma append_assoc3 (a b c : string) : (a +:+ b) +:+ c = a +:+ (b +:+ c).
Proof.
  induction a as [|x a IH]; [reflexivity|]. rewrite !append_cons. now rewrite IH.
Qed.

Lemma append_empty_r (a : string) : a +:+ EmptyString = a.
Proof. induction a as [|x a IH]; [reflexivity|]. rewrite append_cons. now rewrite IH. Qed.

Lemma lower_append (a b : string) : PyStr.lower (a +:+ b) = PyStr.lower a +:+ PyStr.lower b.
Proof.
  induction a as [|x a IH]; [reflexivity|]. rewrite append_cons. simpl.
  rewrite append_cons. now rewrite IH.
Qed.

Lemma lower_char_idempotent (c : ascii) : PyStr.lower_char (PyStr.lower_char c) = PyStr.lower_char c.
Proof. destruct c as [[] [] [] [] [] [] [] []]; reflexivity. Qed.

Lemma lower_idempotent (s : string) : PyStr.lower (PyStr.lower s) = PyStr.lower s.
Proof.
  induction s as [|c s IH]; [reflexivity|]. simpl. now rewrite lower_char_idempotent, IH.
Qed.

Lemma occurs_in_refl (a : string) : occurs_in a a.
Proof. exists EmptyString, EmptyString. now rewrite append_nil, append_empty_r. Qed.

Lemma occurs_in_trans (a b c : string) : occurs_in a b -> occurs_in b c -> occurs_in a c.
Proof.
  intros [p1 [q1 ->]] [p2 [q2 ->]]. exists (p2 +:+ p1), (q1 +:+ q2).
  now rewrite !append_assoc3.
Qed.

Lemma occurs_in_lower (a b : string) :
  occurs_in a b -> occurs_in (PyStr.lower a) (PyStr.lower b).
Proof.
  intros [p [q ->]]. exists (PyStr.lower p), (PyStr.lower q). now rewrite !lower_append.
Qed.

(** ** More on skills and keywords *)

Lemma in_found_terms (vocabulary : list string) (text x : string) :
  In x (list_set (found_terms vocabulary text)) <->
  exists term, In term vocabulary /\ occurs_in term (PyStr.lower text) /\ x = PyStr.title term.
Proof.
  rewrite in_list_set, found_terms_filter, in_map_iff. split.
  - intros [term [<- Hterm]]. apply filter_In in Hterm as [Hin Hc].
    exists term. repeat split; [exact Hin | now apply contains_spec].
  - intros [term (Hin & Hocc & ->)]. exists term. split; [reflexivity|].
    apply filter_In. split; [exact Hin | now apply contains_spec].
Qed.

Lemma titles_distinct :
  List.NoDup (map PyStr.title skill_keywords) /\ List.NoDup (map PyStr.title keywords).
Proof.
  split; apply NoDup_ListNoDup, (bool_decide_unpack _); vm_compute; exact I.
Qed.

Lemma title_injective (vocabulary : list string) (a b : string) :
  List.NoDup (map PyStr.title vocabulary) ->
  In a vocabulary -> In b vocabulary -> PyStr.title a = PyStr.title b -> a = b.
Proof.
  induction vocabulary as [|t v IH]; intros Hnd Ha Hb E; [destruct Ha|].
  simpl in Hnd. apply List.NoDup_cons_iff in Hnd as [Hnot Hnd].
  destruct Ha as [<- | Ha], Hb as [<- | Hb]; auto.
  - exfalso. apply Hnot. rewrite E. now apply in_map.
  - exfalso. apply Hnot. rewrite <- E. now apply in_map.
Qed.

Lemma found_terms_bound (vocabulary : list string) (text : string) :
  (length (list_set (found_terms vocabulary text)) <= length vocabulary)%nat.
Proof.
  rewrite <- (length_map PyStr.title vocabulary).
  apply List.NoDup_incl_length; [apply list_set_NoDup|].
  intros x Hx. apply (proj1 (in_found_terms _ _ _)) in Hx as [term (Hin & _ & ->)]. now apply in_map.
Qed.

Lemma in_extract_skills (text x : string) :
  In x (extract_skills text) <->
  exists term, In term skill_keywords /\ occurs_in term (PyStr.lower text) /\ x = PyStr.title term.
Proof. unfold extract_skills. apply in_found_terms. Qed.

Lemma in_extract_keywords (text x : string) :
  In x (extract_keywords text) <->
  exists term, In term keywords /\ occurs_in term (PyStr.lower text) /\ x = PyStr.title term.
Proof. unfold extract_keywords. apply in_found_terms. Qed.

(** X1: Every vocabulary entry that occurs in the lower-cased text is reported,
    in title case. *)
Theorem vocabulary_entries_reported (text term : string) :
  occurs_in term (PyStr.lower text) ->
  (In term skill_keywords -> In (PyStr.title term) (extract_skills text)) /\
  (In term keywords -> In (PyStr.title term) (extract_keywords text)).
Proof.
  intros Hocc. unfold extract_skills, extract_keywords.
  split; intros Hin; apply (proj2 (in_found_terms _ _ _)); exists term; auto.
Qed.

Lemma vocabulary_entries_reported_witness :
  In "Docker" (extract_skills "We ship with DOCKER") /\
  In "Agile" (extract_keywords "an Agile team").
Proof.
  split.
  - apply (proj1 (vocabulary_entries_reported "We ship with DOCKER" "docker"
                    ltac:(exists "we ship with ", ""; reflexivity))).
    in_list.
  - apply (proj2 (vocabulary_entries_reported "an Agile team" "agile"
                    ltac:(exists "an ", " team"; reflexivity))).
    in_list.
Defined.

(** X2: A text that contains another text reports at least the skills and the
    keywords of the text it contains. *)
Theorem extraction_grows_with_text (inner outer : string) :
  occurs_in inner outer ->
  incl (extract_skills inner) (extract_skills outer) /\
  incl (extract_keywords inner) (extract_keywords outer).
Proof.
  intros Hocc. apply occurs_in_lower in Hocc. split; intros x Hx.
  - apply (proj1 (in_extract_skills _ _)) in Hx as [term (Hin & Ht & ->)].
    apply (proj2 (in_extract_skills _ _)). exists term.
    split; [exact Hin|]. split; [|reflexivity].
    exact (occurs_in_trans _ _ _ Ht Hocc).
  - apply (proj1 (in_extract_keywords _ _)) in Hx as [term (Hin & Ht & ->)].
    apply (proj2 (in_extract_keywords _ _)). exists term.
    split; [exact Hin|]. split; [|reflexivity].
    exact (occurs_in_trans _ _ _ Ht Hocc).
Qed.

Lemma extraction_grows_with_text_witness :
  incl (extract_skills "Python") (extract_skills "Senior Python developer") /\
  incl (extract_keywords "Python") (extract_keywords "Senior Python developer").
Proof.
  apply extraction_grows_with_text. exists "Senior ", " developer". reflexivity.
Defined.

(** X3: The case of the letters of a text does not matter to the extraction. *)
Theorem extraction_ignores_case (text : string) :
  extract_skills (PyStr.lower text) = extract_skills text /\
  extract_keywords (PyStr.lower text) = extract_keywords text.
Proof.
  unfold extract_skills, extract_keywords, found_terms. now rewrite lower_idempotent.
Qed.

Lemma extraction_sizes (text : string) :
  (length (extract_skills text) <= 53)%nat /\ (length (extract_keywords text) <= 21)%nat.
Proof.
  split.
  - apply (found_terms_bound skill_keywords).
  - apply (found_terms_bound keywords).
Qed.

(** X4: At most 53 skills and 21 keywords are reported, whatever the text. *)
Theorem extraction_bounded (text : string) :
  (length (extract_skills text) <= 53)%nat /\ (length (extract_keywords text) <= 21)%nat.
Proof. apply extraction_sizes. Qed.

(** X5: A skill whose name occurs inside the name of another skill is reported
    whenever the other is: "Java" with "Javascript", "Go" with "Django",
    "R" with "React". *)
Theorem nested_skills_reported_together (text inner outer : string) :
  In inner skill_keywords -> In outer skill_keywords -> occurs_in inner outer ->
  In (PyStr.title outer) (extract_skills text) ->
  In (PyStr.title inner) (extract_skills text).
Proof.
  intros Hi Ho Hocc Hx.
  apply (proj1 (in_extract_skills _ _)) in Hx as [term (Hin & Ht & E)].
  pose proof (title_injective skill_keywords outer term (proj1 titles_distinct) Ho Hin E) as E'.
  subst term. apply (proj2 (in_extract_skills _ _)).
  exists inner. split; [exact Hi|]. split; [|reflexivity].
  exact (occurs_in_trans _ outer _ Hocc Ht).
Qed.

Lemma nested_skills_reported_together_witness :
  In "Go" (extract_skills "Backend in Django").
Proof.
  apply (nested_skills_reported_together "Backend in Django" "go" "django").
  - in_list.
  - in_list.
  - exists "djan", "". reflexivity.
  - apply (proj2 (in_extract_skills _ _)). exists "django".
    split; [in_list|]. split; [|reflexivity]. exists "backend in ", "". reflexivity.
Defined.

(** ** More on the name and the phone number *)

Lemma sentinel_name_like : name_like "Name not found".
Proof. apply name_cond_spec. split; reflexivity. Qed.

Lemma name_loop_invariant (lines : list string) :
  name_like (name_loop lines) /\
  (name_loop lines = "Name not found" \/ In (name_loop lines) (map PyStr.strip lines)).
Proof.
  induction lines as [|line rest [IHn IHi]].
  - split; [apply sentinel_name_like | now left].
  - cbn [name_loop]. cbv zeta.
    destruct ((0 <? String.length (PyStr.strip line))%nat &&
              (length (PyStr.split_ws (PyStr.strip line)) <=? 4)%nat) eqn:E1.
    + destruct (negb (PyStr.any_char PyStr.isdigit (PyStr.strip line)) &&
                negb (PyStr.contains "@" (PyStr.strip line))) eqn:E2.
      * split; [apply name_cond_spec; auto | right; now left].
      * split; [exact IHn | destruct IHi; [now left | right; now right]].
    + split; [exact IHn | destruct IHi; [now left | right; now right]].
Qed.

(** X6: Whatever the text, the name returned is never empty, has at most four
    tokens, no digit and no [@]: the text "Name not found" passes the test
    of a name itself.  The name is that text or one of the first five lines,
    stripped. *)
Theorem extract_name_always_name_like (text : string) :
  name_like (extract_name text) /\
  (extract_name text = "Name not found" \/
   In (extract_name text) (map PyStr.strip (firstn 5 (PyStr.split_on "010"%char text)))).
Proof. unfold extract_name. cbv zeta. apply name_loop_invariant. Qed.

Section Phone.
Context `{Externals}.

Lemma phone_loop_first (patterns : list string) (text : string) (i : nat)
    (pattern first : string) (others : list string) :
  patterns !! i = Some pattern ->
  re_findall pattern text = first :: others ->
  (forall j p, (j < i)%nat -> patterns !! j = Some p -> re_findall p text = []) ->
  phone_loop patterns text = first.
Proof.
  revert i. induction patterns as [|p0 rest IH]; intros i Hi Hm Hbefore; [discriminate|].
  destruct i as [|i]; cbn [phone_loop].
  - injection Hi as ->. now rewrite Hm.
  - rewrite (Hbefore 0%nat p0 ltac:(lia) eq_refl).
    apply (IH i Hi Hm). intros j p Hj Hp. apply (Hbefore (S j) p); [lia | exact Hp].
Qed.

Lemma phone_loop_none (patterns : list string) (text : string) :
  (forall p, In p patterns -> re_findall p text = []) ->
  phone_loop patterns text = "Phone not found".
Proof.
  induction patterns as [|p0 rest IH]; intros Hall; [reflexivity|].
  cbn [phone_loop]. rewrite (Hall p0 (or_introl eq_refl)).
  apply IH. intros p Hp. apply Hall. now right.
Qed.

(** X7: The phone number is the first match of the first of the three patterns
    that matches at all; later patterns are not consulted, and without any
    match the result is "Phone not found". *)
Theorem extract_phone_first_pattern (text : string) :
  (forall i pattern first others,
      phone_patterns !! i = Some pattern ->
      re_findall pattern text = first :: others ->
      (forall j p, (j < i)%nat -> phone_patterns !! j = Some p -> re_findall p text = []) ->
      extract_phone text = first) /\
  ((forall p, In p phone_patterns -> re_findall p text = []) ->
   extract_phone text = "Phone not found").
Proof.
  split.
  - intros i pattern first others. apply phone_loop_first.
  - apply phone_loop_none.
Qed.

End Phone.

Lemma extract_phone_first_pattern_witness :
  @extract_phone ten_digit_externals "5551234567" = "5551234567" /\
  @extract_phone plain_externals "5551234567" = "Phone not found".
Proof.
  split.
  - apply (proj1 (@extract_phone_first_pattern ten_digit_externals "5551234567")
             1%nat "\b\d{10}\b" "5551234567" []).
    + reflexivity.
    + reflexivity.
    + intros j p Hj Hp. destruct j as [|j]; [|lia]. injection Hp as <-. reflexivity.
  - apply (proj2 (@extract_phone_first_pattern plain_externals "5551234567")).
    intros p _. reflexivity.
Defined.

(** ** More on the scores *)

Section MoreScores.
Import PyFloat PyFloatFacts.
Local Open Scope Q_scope.

Lemma RN_equal (x y : Q) : 0 <= x -> x == y -> RN x == RN y.
Proof.
  intros Hx E. apply Qle_antisym; apply RN_mono; rewrite ?E; try rewrite <- E; try exact Hx;
    apply Qle_refl.
Qed.

Lemma to_int_equal (x y : Q) : 0 <= x -> x == y -> to_int x = to_int y.
Proof.
  intros Hx E. rewrite !to_int_floor by (rewrite <- ?E; exact Hx). now apply Qfloor_comp.
Qed.

(** All of a non-empty whole is 100 percent, none of it is 0 percent. *)
Lemma percent_all (n : nat) : (0 < n)%nat -> percent n n = 100%Z.
Proof.
  intros Hn. unfold percent, fmul, truediv.
  assert (Hq : ~ inject_Z (Z.of_nat n) == 0).
  { change 0 with (inject_Z 0). rewrite inject_Z_injective. lia. }
  assert (E1 : RN (inject_Z (Z.of_nat n) / inject_Z (Z.of_nat n)) == 1).
  { transitivity (RN 1); [|apply RN_1].
    apply RN_equal; [apply ratio_nonneg | now apply Qmult_inv_r]. }
  set (x := RN (inject_Z (Z.of_nat n) / inject_Z (Z.of_nat n))) in *.
  assert (E2 : x * of_int 100 == 100) by (rewrite E1, of_int_100; reflexivity).
  assert (E3 : RN (x * of_int 100) == 100).
  { transitivity (RN 100); [|apply RN_100].
    apply RN_equal; [rewrite E2; discriminate | exact E2]. }
  assert (N : 0 <= RN (x * of_int 100)) by (rewrite E3; discriminate).
  exact (to_int_equal _ 100 N E3).
Qed.

Lemma percent_none (n : nat) : percent 0 n = 0%Z.
Proof.
  unfold percent, fmul, truediv.
  assert (E : inject_Z (Z.of_nat 0) / inject_Z (Z.of_nat n) == 0)
    by (unfold Qdiv; apply Qmult_0_l).
  assert (E1 : RN (inject_Z (Z.of_nat 0) / inject_Z (Z.of_nat n)) == 0).
  { transitivity (RN 0); [|apply RN_0].
    apply RN_equal; [rewrite E; apply Qle_refl | exact E]. }
  set (x := RN (inject_Z (Z.of_nat 0) / inject_Z (Z.of_nat n))) in *.
  assert (E2 : x * of_int 100 == 0) by (rewrite E1; apply Qmult_0_l).
  assert (E3 : RN (x * of_int 100) == 0).
  { transitivity (RN 0); [|apply RN_0].
    apply RN_equal; [rewrite E2; apply Qle_refl | exact E2]. }
  assert (N : 0 <= RN (x * of_int 100)) by (rewrite E3; apply Qle_refl).
  exact (to_int_equal _ 0 N E3).
Qed.


Lemma exact_weighted_floor_between (s k : Z) :
  (Z.min s k <= exact_weighted_floor s k <= Z.max s k)%Z.
Proof.
  unfold exact_weighted_floor.
  assert (E : inject_Z s * (7 # 10) + inject_Z k * (3 # 10)
              == inject_Z (7 * s + 3 * k) / inject_Z 10).
  { rewrite inject_Z_plus, !inject_Z_mult. field. }
  rewrite (Qfloor_comp _ _ E), <- Zdiv_Qdiv.
  split.
  - apply Z.div_le_lower_bound; lia.
  - apply Z.div_le_upper_bound; lia.
Qed.

End MoreScores.

Lemma filter_length_all {A} (f : A -> bool) (l : list A) :
  (forall x, In x l -> f x = true) -> length (List.filter f l) = length l.
Proof.
  induction l as [|a l IH]; intros Hall; [reflexivity|]. simpl.
  rewrite (Hall a (or_introl eq_refl)). simpl. f_equal. apply IH. intros x Hx. apply Hall. now right.
Qed.

Lemma filter_length_none {A} (f : A -> bool) (l : list A) :
  (forall x, In x l -> f x = false) -> length (List.filter f l) = 0%nat.
Proof.
  induction l as [|a l IH]; intros Hall; [reflexivity|]. simpl.
  rewrite (Hall a (or_introl eq_refl)). apply IH. intros x Hx. apply Hall. now right.
Qed.


Lemma size_positive (X : gset string) : X <> ∅ -> (0 < size X)%nat.
Proof.
  intros Hne. destruct (size X) eqn:E; [|lia].
  exfalso. apply Hne. now apply size_empty_iff, leibniz_equiv_iff in E.
Qed.


(** X8: A resume that has every required skill scores 100 on skills; a resume
    that has none of them scores 0, unless nothing is required. *)
Theorem skill_match_extremes (resume_data : ResumeData) (jd_data : JobData) :
  let resume_skills := lower_set (default [] (rd_skills resume_data)) in
  let jd_skills := lower_set (default [] (jd_required_skills jd_data)) in
  (jd_skills ⊆ resume_skills ->
   skill_match (compare_resume_jd resume_data jd_data) = 100%Z) /\
  (jd_skills <> ∅ -> resume_skills ∩ jd_skills = ∅ ->
   skill_match (compare_resume_jd resume_data jd_data) = 0%Z).
Proof.
  intros resume_skills jd_skills. cbn [compare_resume_jd skill_match].
  fold resume_skills jd_skills. unfold skill_match_of. split.
  - intros Hsub. destruct (decide (jd_skills = ∅)) as [|Hne]; [reflexivity|].
    rewrite (comm_L (∩) resume_skills jd_skills), (subseteq_intersection_1_L _ _ Hsub).
    apply percent_all, size_positive, Hne.
  - intros Hne Hdis. rewrite decide_False by exact Hne. rewrite Hdis.
    apply percent_none.
Qed.

Lemma skill_match_extremes_witness :
  let jd := {| jd_text := None; jd_required_skills := Some ["Python"; "Docker"];
               jd_keywords := None |} in
  let full := {| rd_text := None; rd_name := None; rd_email := None; rd_phone := None;
                 rd_skills := Some ["docker"; "PYTHON"; "Go"] |} in
  let none := {| rd_text := None; rd_name := None; rd_email := None; rd_phone := None;
                 rd_skills := Some ["Go"] |} in
  skill_match (compare_resume_jd full jd) = 100%Z /\
  skill_match (compare_resume_jd none jd) = 0%Z.
Proof.
  intros jd full none. split.
  - apply (proj1 (skill_match_extremes full jd)).
    apply (bool_decide_unpack _). vm_compute. exact I.
  - apply (proj2 (skill_match_extremes none jd)).
    + apply (bool_decide_unpack _). vm_compute. exact I.
    + apply (bool_decide_unpack _). vm_compute. exact I.
Defined.

(** X9: When every keyword of the job description occurs in the lower-cased
    text of the resume the keyword coverage is 100; when none does it is 0,
    unless there is no keyword. *)
Theorem keyword_coverage_extremes (resume_data : ResumeData) (jd_data : JobData) :
  let text := PyStr.lower (default EmptyString (rd_text resume_data)) in
  let jd_keywords := lower_set (default [] (jd_keywords jd_data)) in
  ((forall k, k ∈ jd_keywords -> occurs_in k text) ->
   keyword_coverage (compare_resume_jd resume_data jd_data) = 100%Z) /\
  (jd_keywords <> ∅ -> (forall k, k ∈ jd_keywords -> ~ occurs_in k text) ->
   keyword_coverage (compare_resume_jd resume_data jd_data) = 0%Z).
Proof.
  intros text kws. cbn [compare_resume_jd keyword_coverage].
  fold text kws. unfold keyword_coverage_of. split.
  - intros Hall. destruct (decide (kws = ∅)) as [|Hne]; [reflexivity|].
    rewrite filter_length_all.
    + rewrite <- size_elements. apply percent_all, size_positive, Hne.
    + intros k Hk. apply contains_spec, Hall, elem_of_elements, list_elem_of_In, Hk.
  - intros Hne Hnone. rewrite decide_False by exact Hne.
    rewrite filter_length_none; [apply percent_none|].
    intros k Hk. apply not_true_iff_false. intros Hc. apply contains_spec in Hc.
    apply (Hnone k); [|exact Hc]. apply elem_of_elements, list_elem_of_In, Hk.
Qed.

Lemma keyword_coverage_extremes_witness :
  let jd := {| jd_text := None; jd_required_skills := None;
               jd_keywords := Some ["Agile"; "Scrum"] |} in
  let full := {| rd_text := Some "SCRUM master in an agile team"; rd_name := None;
                 rd_email := None; rd_phone := None; rd_skills := None |} in
  let none := {| rd_text := Some "waterfall"; rd_name := None;
                 rd_email := None; rd_phone := None; rd_skills := None |} in
  keyword_coverage (compare_resume_jd full jd) = 100%Z /\
  keyword_coverage (compare_resume_jd none jd) = 0%Z.
Proof.
  intros jd full none.
  assert (Hk : forall k, k ∈ lower_set ["Agile"; "Scrum"] -> k = "agile" \/ k = "scrum").
  { intros k Hk. unfold lower_set in Hk.
    apply elem_of_list_to_set, list_elem_of_In in Hk. simpl in Hk. intuition. }
  split.
  - apply (proj1 (keyword_coverage_extremes full jd)).
    intros k Hin. apply contains_spec. destruct (Hk k Hin) as [-> | ->]; reflexivity.
  - apply (proj2 (keyword_coverage_extremes none jd)).
    + apply (bool_decide_unpack _). vm_compute. exact I.
    + intros k Hin Hocc. apply contains_spec in Hocc.
      destruct (Hk k Hin) as [-> | ->]; discriminate Hocc.
Defined.



(** X11: The overall score is never above the larger of the skill match and the
    keyword coverage, and never more than one below the smaller. *)
Theorem overall_between_components (resume_data : ResumeData) (jd_data : JobData) :
  let r := compare_resume_jd resume_data jd_data in
  (Z.min (skill_match r) (keyword_coverage r) - 1 <= overall_score r
   <= Z.max (skill_match r) (keyword_coverage r))%Z.
Proof.
  cbn [compare_resume_jd skill_match keyword_coverage overall_score].
  set (s := skill_match_of _ _). set (k := keyword_coverage_of _ _).
  pose proof (skill_match_of_range
                (lower_set (default [] (rd_skills resume_data)))
                (lower_set (default [] (jd_required_skills jd_data)))) as Hs.
  pose proof (keyword_coverage_of_range
                (PyStr.lower (default EmptyString (rd_text resume_data)))
                (lower_set (default [] (jd_keywords jd_data)))) as Hk.
  fold s in Hs. fold k in Hk.
  pose proof (exact_weighted_floor_between s k) as He.
  destruct (overall_near_exact s k Hs Hk) as [-> | ->]; lia.
Qed.

(** On sets of at most 53 elements, the size of the skill vocabulary, the
    percentage is the exact one rounded down, except for 29 of 50: in
    binary64 (29 / 50) * 100 is 57.99999999999999. *)
Lemma percent_small_grid :
  forallb (fun n =>
    forallb (fun m =>
      (percent m n =?
       (if (m =? 29)%nat && (n =? 50)%nat then 57
        else 100 * Z.of_nat m / Z.of_nat n))%Z)
      (seq 0 (S n)))
    (seq 1 53) = true.
Proof. vm_cast_no_check (eq_refl true). Qed.

Lemma percent_small (m n : nat) :
  (m <= n)%nat -> (1 <= n <= 53)%nat ->
  percent m n = (if (m =? 29)%nat && (n =? 50)%nat then 57
                 else 100 * Z.of_nat m / Z.of_nat n)%Z.
Proof.
  intros Hm Hn. pose proof percent_small_grid as G.
  rewrite forallb_forall in G. specialize (G n ltac:(apply in_seq; lia)).
  rewrite forallb_forall in G. specialize (G m ltac:(apply in_seq; lia)).
  now apply Z.eqb_eq in G.
Qed.

Lemma size_list_to_set_le (l : list string) :
  (size (list_to_set l : gset string) <= length l)%nat.
Proof.
  rewrite size_elements. apply List.NoDup_incl_length.
  - apply NoDup_ListNoDup, NoDup_elements.
  - intros x Hx. apply list_elem_of_In. apply list_elem_of_In, elem_of_elements in Hx.
    now apply elem_of_list_to_set in Hx.
Qed.

Lemma size_lower_set_le (l : list string) : (size (lower_set l) <= length l)%nat.
Proof.
  unfold lower_set. rewrite <- (length_map PyStr.lower l). apply size_list_to_set_le.
Qed.

Section ParsedScores.
Context `{Externals}.

(** X12: For a job description parsed by the program, the keyword coverage is
    the exact percentage of its keywords found in the resume, rounded down,
    and so is the skill match, except that 29 of 50 required skills give 57
    instead of 58. *)
Theorem parsed_scores_exact (fs : files) (file_path : string) (resume_data : ResumeData) :
  let r := compare_resume_jd resume_data (parse_job_description fs file_path) in
  let required := lower_set (extract_skills (job_description_text fs file_path)) in
  let matching := lower_set (default [] (rd_skills resume_data)) ∩ required in
  let kws := lower_set (extract_keywords (job_description_text fs file_path)) in
  let hits :=
    length (List.filter
              (fun k => PyStr.contains k (PyStr.lower (default EmptyString (rd_text resume_data))))
              (elements kws)) in
  (required <> ∅ ->
   skill_match r =
   (if (size matching =? 29)%nat && (size required =? 50)%nat then 57
    else 100 * Z.of_nat (size matching) / Z.of_nat (size required))%Z) /\
  (kws <> ∅ ->
   keyword_coverage r = (100 * Z.of_nat hits / Z.of_nat (size kws))%Z).
Proof.
  intros r required matching kws hits. subst r.
  cbn [compare_resume_jd parse_job_description skill_match keyword_coverage
       jd_required_skills jd_keywords default from_option id].
  fold required kws. unfold skill_match_of, keyword_coverage_of. fold matching hits.
  pose proof (extraction_sizes (job_description_text fs file_path)) as [Hs Hk].
  pose proof (size_lower_set_le (extract_skills (job_description_text fs file_path))) as Hs'.
  pose proof (size_lower_set_le (extract_keywords (job_description_text fs file_path))) as Hk'.
  fold required in Hs'. fold kws in Hk'.
  split; intros Hne; rewrite decide_False by exact Hne; apply size_positive in Hne.
  - apply percent_small.
    + apply subseteq_size, intersection_subseteq_r.
    + split; [exact Hne | exact (Nat.le_trans _ _ _ Hs' Hs)].
  - assert (Hh : (hits <= size kws)%nat)
      by (rewrite size_elements; apply List.filter_length_le).
    pose proof (Nat.le_trans _ _ _ Hk' Hk) as Hk21.
    rewrite percent_small; [|exact Hh|split; [exact Hne | lia]].
    replace ((hits =? 29)%nat && (size kws =? 50)%nat) with false; [reflexivity|].
    symmetry. apply andb_false_iff. right. apply Nat.eqb_neq. lia.
Qed.

End ParsedScores.

Lemma parsed_scores_exact_witness :
  let fs : files := {[ "uploads/jd.txt" := list_byte_of_string "python docker, agile scrum" ]} in
  let rd := {| rd_text := Some "Agile coach"; rd_name := None; rd_email := None;
               rd_phone := None; rd_skills := Some ["Python"] |} in
  let r := compare_resume_jd rd (@parse_job_description plain_externals fs "uploads/jd.txt") in
  skill_match r = 25%Z /\ keyword_coverage r = 50%Z.
Proof.
  intros fs rd r.
  pose proof (@parsed_scores_exact plain_externals fs "uploads/jd.txt" rd) as [Hs Hk].
  split.
  - subst r. rewrite Hs; [vm_compute; reflexivity|].
    apply (bool_decide_unpack _). vm_compute. exact I.
  - subst r. rewrite Hk; [vm_compute; reflexivity|].
    apply (bool_decide_unpack _). vm_compute. exact I.
Defined.

(** ** More on the suggestions *)

Lemma firstn_incl {A} (n : nat) (l : list A) : incl (firstn n l) l.
Proof.
  intros x Hx. rewrite <- (firstn_skipn n l). apply in_or_app. now left.
Qed.

Lemma firstn_NoDup {A} (n : nat) (l : list A) : List.NoDup l -> List.NoDup (firstn n l).
Proof.
  intros Hnd. rewrite <- (firstn_skipn n l) in Hnd. now apply List.NoDup_app_remove_r in Hnd.
Qed.

Lemma skill_match_of_full (resume_skills jd_skills : gset string) :
  jd_skills ⊆ resume_skills -> skill_match_of resume_skills jd_skills = 100%Z.
Proof.
  intros Hsub. unfold skill_match_of.
  destruct (decide (jd_skills = ∅)) as [|Hne]; [reflexivity|].
  rewrite (comm_L (∩) resume_skills jd_skills), (subseteq_intersection_1_L _ _ Hsub).
  apply percent_all, size_positive, Hne.
Qed.

Lemma missing_message_first (sm kc : Z) (resume_skills jd_skills : gset string) :
  (sm < 70)%Z -> jd_skills ∖ resume_skills <> ∅ ->
  exists missing,
    head (generate_suggestions sm kc resume_skills jd_skills)
    = Some ("Add these missing skills: " +:+ PyStr.join ", " missing) /\
    (1 <= length missing <= 3)%nat /\
    List.NoDup missing /\
    (forall x, In x missing -> x ∈ jd_skills /\ x ∉ resume_skills).
Proof.
  intros Hsm Hne. exists (firstn 3 (elements (jd_skills ∖ resume_skills))).
  assert (Hnil : firstn 3 (elements (jd_skills ∖ resume_skills)) <> []).
  { intros E. now apply first_missing_nil in E. }
  split; [|split; [|split]].
  - unfold generate_suggestions, conditional_suggestions. cbv zeta.
    apply Z.ltb_lt in Hsm. rewrite Hsm.
    destruct (firstn 3 (elements (jd_skills ∖ resume_skills))) eqn:E; [congruence|].
    destruct (kc <? 60)%Z, (sm <? 50)%Z, (kc <? 50)%Z; reflexivity.
  - split.
    + destruct (firstn 3 (elements (jd_skills ∖ resume_skills))); [congruence | simpl; lia].
    + apply firstn_le_length.
  - apply firstn_NoDup, NoDup_ListNoDup, NoDup_elements.
  - intros x Hx. apply firstn_incl, list_elem_of_In, elem_of_elements in Hx.
    now apply elem_of_difference in Hx.
Qed.

(** X13: When the skill match is below 70 and some required skill is missing
    from the resume, the first suggestion names up to three of the missing
    skills: distinct required skills that the resume does not have. *)
Theorem missing_skills_suggested (sm kc : Z) (resume_skills jd_skills : gset string) :
  (sm < 70)%Z -> jd_skills ∖ resume_skills <> ∅ ->
  exists missing,
    head (generate_suggestions sm kc resume_skills jd_skills)
    = Some ("Add these missing skills: " +:+ PyStr.join ", " missing) /\
    (1 <= length missing <= 3)%nat /\
    List.NoDup missing /\
    (forall x, In x missing -> x ∈ jd_skills /\ x ∉ resume_skills).
Proof. apply missing_message_first. Qed.

Lemma missing_skills_suggested_witness :
  exists missing,
    head (generate_suggestions 50 80 {[ "python" ]} {[ "python"; "docker" ]})
    = Some ("Add these missing skills: " +:+ PyStr.join ", " missing) /\
    (1 <= length missing <= 3)%nat /\
    List.NoDup missing /\
    (forall x, In x missing -> x ∈ ({[ "python"; "docker" ]} : gset string) /\
                               x ∉ ({[ "python" ]} : gset string)).
Proof.
  apply missing_skills_suggested.
  - lia.
  - apply (bool_decide_unpack _). vm_compute. exact I.
Defined.

(** X14: In a report, a skill match below 70 always comes with the suggestion
    that names missing skills, in first place: a match below 100 means that
    some required skill is missing. *)
Theorem low_skill_match_names_missing (resume_data : ResumeData) (jd_data : JobData) :
  let r := compare_resume_jd resume_data jd_data in
  let resume_skills := lower_set (default [] (rd_skills resume_data)) in
  let jd_skills := lower_set (default [] (jd_required_skills jd_data)) in
  (skill_match r < 70)%Z ->
  exists missing,
    head (suggestions r) = Some ("Add these missing skills: " +:+ PyStr.join ", " missing) /\
    (1 <= length missing <= 3)%nat /\
    List.NoDup missing /\
    (forall x, In x missing -> x ∈ jd_skills /\ x ∉ resume_skills).
Proof.
  intros r resume_skills jd_skills. subst r.
  cbn [compare_resume_jd skill_match suggestions]. fold resume_skills jd_skills.
  intros Hsm. apply missing_message_first; [exact Hsm|].
  intros Hempty.
  assert (Hsub : jd_skills ⊆ resume_skills).
  { intros x Hx. destruct (decide (x ∈ resume_skills)) as [|Hnot]; [assumption|].
    assert (Hd : x ∈ jd_skills ∖ resume_skills) by (apply elem_of_difference; auto).
    rewrite Hempty in Hd. now apply not_elem_of_empty in Hd. }
  rewrite (skill_match_of_full _ _ Hsub) in Hsm. lia.
Qed.

Lemma low_skill_match_names_missing_witness :
  let jd := {| jd_text := None; jd_required_skills := Some ["Python"; "Docker"; "Kubernetes"];
               jd_keywords := None |} in
  let rd := {| rd_text := None; rd_name := None; rd_email := None; rd_phone := None;
               rd_skills := Some ["Python"; "Docker"] |} in
  exists missing,
    head (suggestions (compare_resume_jd rd jd))
    = Some ("Add these missing skills: " +:+ PyStr.join ", " missing) /\
    (1 <= length missing <= 3)%nat /\
    List.NoDup missing /\
    (forall x, In x missing ->
               x ∈ lower_set ["Python"; "Docker"; "Kubernetes"] /\
               x ∉ lower_set ["Python"; "Docker"]).
Proof.
  intros jd rd. apply (low_skill_match_names_missing rd jd).
  vm_compute. reflexivity.
Defined.

(** X15: With a skill match of at least 70 and a keyword coverage of at least 60
    no rule fires: the suggestions are the four static tips. *)
Theorem good_scores_static_tips (sm kc : Z) (resume_skills jd_skills : gset string) :
  (70 <= sm)%Z -> (60 <= kc)%Z ->
  generate_suggestions sm kc resume_skills jd_skills = static_tips.
Proof.
  intros Hs Hk. unfold generate_suggestions, conditional_suggestions. cbv zeta.
  rewrite (proj2 (Z.ltb_ge sm 70) Hs), (proj2 (Z.ltb_ge kc 60) Hk).
  rewrite (proj2 (Z.ltb_ge sm 50)) by lia. rewrite (proj2 (Z.ltb_ge kc 50)) by lia.
  reflexivity.
Qed.

Lemma good_scores_static_tips_witness :
  generate_suggestions 75 60 ∅ {[ "python" ]} = static_tips.
Proof. apply good_scores_static_tips; lia. Defined.

(** ** More on the request handler *)


Section MoreHandler.
Context `{Externals}.



(** X18: Two uploads with the same file name always end in a 500: the second
    upload overwrites the first, the first [os.remove] deletes the file and
    the second one raises.  No file is left behind. *)
Theorem same_name_answers_500 (resume job_description : UploadFile) (fs : files) :
  filename resume = filename job_description ->
  can_open_wb ("uploads/" +:+ filename resume) = true ->
  analyze_resume resume job_description fs =
  (Error500 (FileNotFoundError ("uploads/" +:+ filename resume)),
   delete ("uploads/" +:+ filename resume) fs).
Proof.
  intros Eq Hopen.
  unfold analyze_resume, analyze_body, write_upload, os_remove, io_read.
  unfold mbind, io_bind, mret, io_ret. rewrite <- Eq.
  set (rp := "uploads/" +:+ filename resume) in *. rewrite Hopen.
  rewrite lookup_insert_eq, lookup_delete_eq.
  now rewrite !delete_insert_eq.
Qed.

End MoreHandler.



Lemma same_name_answers_500_witness :
  @analyze_resume plain_externals (upload "doc.pdf" "python") (upload "doc.pdf" "python") ∅
  = (Error500 (FileNotFoundError "uploads/doc.pdf"), delete "uploads/doc.pdf" ∅).
Proof.
  apply (@same_name_answers_500 plain_externals); reflexivity.
Defined.

Lemma failure_keeps_upload_witness :
  @analyze_resume plain_externals (upload "cv.pdf" "python") (upload "" "docker") ∅
  = (Error500 (OSError "uploads/"), {[ "uploads/cv.pdf" := list_byte_of_string "python" ]}).
Proof.
  apply (@failure_keeps_upload plain_externals (upload "cv.pdf" "python") (upload "" "docker") ∅);
    reflexivity.
Defined.

(** ** Documents that cannot be read *)

Section Unreadable.
Context `{Externals}.

Lemma unsupported_resume_text (fs : files) (file_path : string) :
  ~ has_suffix ".pdf" (PyStr.lower file_path) -> ~ has_suffix ".docx" (PyStr.lower file_path) ->
  resume_text fs file_path = "Unsupported file format".
Proof.
  intros H1 H2. destruct (resume_text_cases fs file_path) as (_ & _ & R3 & _). exact (R3 H1 H2).
Qed.

Lemma unsupported_job_text (fs : files) (file_path : string) :
  ~ has_suffix ".pdf" (PyStr.lower file_path) -> ~ has_suffix ".docx" (PyStr.lower file_path) ->
  ~ has_suffix ".txt" (PyStr.lower file_path) ->
  job_description_text fs file_path = "Unsupported file format".
Proof.
  intros H1 H2 H3. destruct (job_description_text_cases fs file_path) as (_ & _ & _ & J4).
  exact (J4 H1 H2 H3).
Qed.

(** X20: A resume that cannot be read still yields a profile: the text that
    reports the failure is taken for the name, and its letter r for the
    skill "R".  This holds for an unsupported extension and for a PDF or
    DOCX path without a file. *)
Theorem unreadable_resume_profile (fs : files) (file_path : string) :
  let p := PyStr.lower file_path in
  let profile := parse_resume fs file_path in
  (~ has_suffix ".pdf" p -> ~ has_suffix ".docx" p ->
   rd_text profile = Some "Unsupported file format" /\
   rd_name profile = Some "Unsupported file format" /\
   rd_skills profile = Some ["R"]) /\
  (has_suffix ".pdf" p -> fs !! file_path = None ->
   rd_text profile = Some "Error reading PDF" /\
   rd_name profile = Some "Error reading PDF" /\
   rd_skills profile = Some ["R"]) /\
  (has_suffix ".docx" p -> fs !! file_path = None ->
   rd_text profile = Some "Error reading DOCX" /\
   rd_name profile = Some "Error reading DOCX" /\
   rd_skills profile = Some ["R"]).
Proof.
  intros p profile. subst profile. unfold parse_resume. cbv zeta.
  cbn [rd_text rd_name rd_skills].
  destruct (resume_text_cases fs file_path) as (R1 & R2 & R3 & _). fold p in R1, R2, R3.
  split; [|split].
  - intros H1 H2. rewrite (R3 H1 H2).
    split; [|split]; vm_compute; reflexivity.
  - intros H1 Hno. rewrite (R1 H1). unfold extract_text_from_pdf. rewrite Hno.
    split; [|split]; vm_compute; reflexivity.
  - intros H1 Hno. rewrite (R2 H1). unfold extract_text_from_docx. rewrite Hno.
    split; [|split]; vm_compute; reflexivity.
Qed.

(** X21: A job description that cannot be read asks for the skill "R" and has no
    keyword. *)
Theorem unreadable_job_requirements (fs : files) (file_path : string) :
  let p := PyStr.lower file_path in
  let job := parse_job_description fs file_path in
  (~ has_suffix ".pdf" p -> ~ has_suffix ".docx" p -> ~ has_suffix ".txt" p ->
   jd_required_skills job = Some ["R"] /\ jd_keywords job = Some []) /\
  (has_suffix ".txt" p -> fs !! file_path = None ->
   jd_text job = Some "Error reading TXT" /\
   jd_required_skills job = Some ["R"] /\ jd_keywords job = Some []).
Proof.
  intros p job. subst job. unfold parse_job_description. cbv zeta.
  cbn [jd_text jd_required_skills jd_keywords].
  destruct (job_description_text_cases fs file_path) as (_ & _ & J3 & J4). fold p in J3, J4.
  split.
  - intros H1 H2 H3. rewrite (J4 H1 H2 H3). split; vm_compute; reflexivity.
  - intros H1 Hno. rewrite (J3 H1). unfold extract_text_from_txt. rewrite Hno.
    split; [|split]; vm_compute; reflexivity.
Qed.

(** X22: Two documents with unsupported extensions score 100 on everything:
    both texts are "Unsupported file format", one required skill "R" that
    the resume has, and no keyword. *)
Theorem unsupported_pair_scores_100 (fs : files) (resume_path jd_path : string) :
  ~ has_suffix ".pdf" (PyStr.lower resume_path) ->
  ~ has_suffix ".docx" (PyStr.lower resume_path) ->
  ~ has_suffix ".pdf" (PyStr.lower jd_path) ->
  ~ has_suffix ".docx" (PyStr.lower jd_path) ->
  ~ has_suffix ".txt" (PyStr.lower jd_path) ->
  compare_resume_jd (parse_resume fs resume_path) (parse_job_description fs jd_path)
  = {| overall_score := 100; skill_match := 100; keyword_coverage := 100;
       suggestions := static_tips |}.
Proof.
  intros R1 R2 J1 J2 J3. unfold parse_resume, parse_job_description. cbv zeta.
  rewrite (unsupported_resume_text fs resume_path R1 R2).
  rewrite (unsupported_job_text fs jd_path J1 J2 J3).
  vm_compute. reflexivity.
Qed.

End Unreadable.

Lemma no_suffix (suffix s : string) : PyStr.endswith suffix s = false -> ~ has_suffix suffix s.
Proof. intros E Hs. apply endswith_spec in Hs. congruence. Qed.

Lemma unreadable_resume_profile_witness :
  rd_name (@parse_resume plain_externals ∅ "uploads/cv.txt") = Some "Unsupported file format" /\
  rd_name (@parse_resume plain_externals ∅ "uploads/cv.PDF") = Some "Error reading PDF" /\
  rd_skills (@parse_resume plain_externals ∅ "uploads/cv.docx") = Some ["R"].
Proof.
  split; [|split].
  - destruct (@unreadable_resume_profile plain_externals ∅ "uploads/cv.txt") as (U & _ & _).
    destruct U as (_ & E & _); [apply no_suffix; reflexivity ..| exact E].
  - destruct (@unreadable_resume_profile plain_externals ∅ "uploads/cv.PDF") as (_ & U & _).
    destruct U as (_ & E & _); [exists "uploads/cv"; reflexivity | reflexivity | exact E].
  - destruct (@unreadable_resume_profile plain_externals ∅ "uploads/cv.docx") as (_ & _ & U).
    destruct U as (_ & _ & E); [exists "uploads/cv"; reflexivity | reflexivity | exact E].
Defined.

Lemma unreadable_job_requirements_witness :
  jd_required_skills (@parse_job_description plain_externals ∅ "uploads/jd.odt") = Some ["R"] /\
  jd_text (@parse_job_description plain_externals ∅ "uploads/jd.txt") = Some "Error reading TXT".
Proof.
  split.
  - destruct (@unreadable_job_requirements plain_externals ∅ "uploads/jd.odt") as (U & _).
    destruct U as (E & _); [apply no_suffix; reflexivity ..| exact E].
  - destruct (@unreadable_job_requirements plain_externals ∅ "uploads/jd.txt") as (_ & U).
    destruct U as (E & _); [exists "uploads/jd"; reflexivity | reflexivity | exact E].
Defined.

Lemma unsupported_pair_scores_100_witness :
  overall_score (compare_resume_jd (@parse_resume plain_externals ∅ "uploads/cv.odt")
                                   (@parse_job_description plain_externals ∅ "uploads/jd.rtf"))
  = 100%Z.
Proof.
  rewrite (@unsupported_pair_scores_100 plain_externals ∅ "uploads/cv.odt" "uploads/jd.rtf");
    [reflexivity | apply no_suffix; reflexivity ..].
Defined.

(** ** The lines of an extracted text *)

Lemma concat_lines_from (items : list string) (text : string) :
  fold_left (fun text item => text +:+ item +:+ nl) items text
  = text +:+ concat_lines items.
Proof.
  unfold concat_lines. revert text. induction items as [|item items IH]; intros text; simpl.
  - now rewrite append_empty_r.
  - rewrite IH, (IH (EmptyString +:+ item +:+ nl)), append_nil. now rewrite !append_assoc3.
Qed.

Lemma concat_lines_cons (item : string) (items : list string) :
  concat_lines (item :: items) = item +:+ String "010"%char (concat_lines items).
Proof.
  unfold concat_lines at 1. simpl. rewrite concat_lines_from, append_nil.
  unfold nl. now rewrite append_assoc3.
Qed.

Lemma split_on_line (sep : ascii) (line rest : string) :
  ~ In sep (PyStr.chars line) ->
  PyStr.split_on sep (line +:+ String sep rest) = line :: PyStr.split_on sep rest.
Proof.
  induction line as [|c line IH]; intros Hno.
  - rewrite append_nil. cbn [PyStr.split_on]. now rewrite Ascii.eqb_refl.
  - rewrite append_cons. cbn [PyStr.split_on].
    assert (Hc : Ascii.eqb c sep = false).
    { apply Ascii.eqb_neq. intros ->. apply Hno. now left. }
    rewrite Hc, IH; [reflexivity|]. intros Hin. apply Hno. now right.
Qed.

Lemma lines_of_concat_lines (items : list string) :
  (forall item, In item items -> ~ In "010"%char (PyStr.chars item)) ->
  PyStr.split_on "010"%char (concat_lines items) = items ++ [EmptyString].
Proof.
  induction items as [|item items IH]; intros Hno; [reflexivity|].
  rewrite concat_lines_cons, split_on_line by (apply Hno; now left).
  simpl. f_equal. apply IH. intros i Hi. apply Hno. now right.
Qed.

Section ExtractedLines.
Context `{Externals}.

(** X23: The lines of the text of a readable DOCX file are its paragraphs, in
    order, followed by one empty line; the same holds for the pages of a
    PDF file, as long as no paragraph or page contains a line feed. *)
Theorem extracted_lines (fs : files) (file_path : string) (data : list byte)
    (items : list string) :
  fs !! file_path = Some data ->
  (forall item, In item items -> ~ In "010"%char (PyStr.chars item)) ->
  (docx_paragraph_texts data = Some items ->
   PyStr.split_on "010"%char (extract_text_from_docx fs file_path) = items ++ [EmptyString]) /\
  (pdf_page_texts data = Some items ->
   PyStr.split_on "010"%char (extract_text_from_pdf fs file_path) = items ++ [EmptyString]).
Proof.
  intros Hfile Hno. unfold extract_text_from_docx, extract_text_from_pdf. rewrite Hfile.
  split; intros ->; now apply lines_of_concat_lines.
Qed.

End ExtractedLines.

Lemma extracted_lines_witness :
  let fs : files := {[ "uploads/cv.docx" := list_byte_of_string "Jane Doe" ]} in
  PyStr.split_on "010"%char (@extract_text_from_docx plain_externals fs "uploads/cv.docx")
  = ["Jane Doe"; ""].
Proof.
  intros fs.
  apply (proj1 (@extracted_lines plain_externals fs "uploads/cv.docx"
                  (list_byte_of_string "Jane Doe") ["Jane Doe"] eq_refl
                  ltac:(intros item [<- | []]; vm_compute; intuition discriminate))).
  reflexivity.
Defined.

(** ** The report does not depend on how the skills are written *)

(** X24: Two resumes with the same text whose skills are the same up to case,
    order and repetition get the same report. *)
Theorem report_ignores_skill_spelling (resume1 resume2 : ResumeData) (jd_data : JobData) :
  rd_text resume1 = rd_text resume2 ->
  (forall x, In x (map PyStr.lower (default [] (rd_skills resume1))) <->
             In x (map PyStr.lower (default [] (rd_skills resume2)))) ->
  compare_resume_jd resume1 jd_data = compare_resume_jd resume2 jd_data.
Proof.
  intros Ht Hs. unfold compare_resume_jd. cbv zeta. rewrite Ht.
  assert (E : lower_set (default [] (rd_skills resume1))
              = lower_set (default [] (rd_skills resume2))).
  { unfold lower_set. apply set_eq. intros x.
    rewrite !elem_of_list_to_set, !list_elem_of_In. apply Hs. }
  now rewrite E.
Qed.

Lemma report_ignores_skill_spelling_witness :
  let jd := {| jd_text := None; jd_required_skills := Some ["Python"; "Docker"];
               jd_keywords := None |} in
  let rd1 := {| rd_text := None; rd_name := None; rd_email := None; rd_phone := None;
                rd_skills := Some ["PYTHON"; "docker"; "Python"] |} in
  let rd2 := {| rd_text := None; rd_name := Some "Jane"; rd_email := None; rd_phone := None;
                rd_skills := Some ["Docker"; "python"] |} in
  compare_resume_jd rd1 jd = compare_resume_jd rd2 jd.
Proof.
  intros jd rd1 rd2. apply (report_ignores_skill_spelling rd1 rd2 jd).
  - reflexivity.
  - intros x. simpl. tauto.
Defined.
